(** * create_custom_fields: a shallow embedding of the MCP tool

    Source: packages/mcp-provider-dx-core/src/tools/create_custom_fields.ts

    The tool turns a batch of field definitions into metadata payloads,
    submits them in one [metadata.create] call, partitions the outcomes and
    then grants field permissions, trying each grantee as a PermissionSet
    first and as a Profile second.

    JavaScript values are modelled by [jsval]; plain objects are property
    lists in insertion order (the order [Object.entries] enumerates string
    keys in).  Remote calls, the process-wide working directory and thrown
    exceptions are modelled by a state-and-exception monad over a [World]
    that logs every remote call made. *)

From Stdlib Require Import String Ascii List Bool Arith Lia QArith.
From Stdlib Require Import DecimalString Permutation.
Import ListNotations.

Close Scope Q_scope.
Local Open Scope list_scope.
Local Open Scope string_scope.

Set Warnings "-register-all".

(* ================================================================== *)
(** * JavaScript values and plain objects *)
(* ================================================================== *)

(** The values the tool handles.  JS numbers that come from the validated
    input ([z.number()]) are only ever copied, never computed with; they are
    modelled as rationals, which contain every finite double.  [VBuiltin]
    names an object of the realm (a built-in function or prototype). *)
Inductive jsval : Type :=
| VUndefined
| VBool (b : bool)
| VNum (q : Q)
| VStr (s : string)
| VArr (elems : list jsval)
| VObj (props : list (string * jsval))
| VBuiltin (path : string).

(** A plain object: own enumerable string-keyed properties, insertion order. *)
Definition obj : Type := list (string * jsval).

(** [v !== undefined] *)
Definition isDefined (v : jsval) : bool :=
  match v with
  | VUndefined => false
  | _ => true
  end.

(** Own-property lookup. *)
Fixpoint getOwn (k : string) (o : obj) : option jsval :=
  match o with
  | [] => None
  | (k', v) :: rest => if String.eqb k' k then Some v else getOwn k rest
  end.

(** [o[k] = v]: an existing key keeps its position, a new key goes last. *)
Fixpoint setProp (k : string) (v : jsval) (o : obj) : obj :=
  match o with
  | [] => [(k, v)]
  | (k', v') :: rest =>
      if String.eqb k' k then (k', v) :: rest else (k', v') :: setProp k v rest
  end.

(** [{ ...dst, ...src }]: the properties of [src] are defined on [dst] one
    after the other, in the order of [src]. *)
Definition spread (src dst : obj) : obj :=
  fold_left (fun acc kv => setProp (fst kv) (snd kv) acc) src dst.

(** The properties every object literal inherits from [Object.prototype]
    (ECMAScript, with the Annex B accessors Node provides).  The [__proto__]
    accessor yields the prototype itself. *)
Definition objectPrototype : obj :=
  [ ("constructor", VBuiltin "Object");
    ("__defineGetter__", VBuiltin "Object.prototype.__defineGetter__");
    ("__defineSetter__", VBuiltin "Object.prototype.__defineSetter__");
    ("hasOwnProperty", VBuiltin "Object.prototype.hasOwnProperty");
    ("__lookupGetter__", VBuiltin "Object.prototype.__lookupGetter__");
    ("__lookupSetter__", VBuiltin "Object.prototype.__lookupSetter__");
    ("isPrototypeOf", VBuiltin "Object.prototype.isPrototypeOf");
    ("propertyIsEnumerable", VBuiltin "Object.prototype.propertyIsEnumerable");
    ("toString", VBuiltin "Object.prototype.toString");
    ("valueOf", VBuiltin "Object.prototype.valueOf");
    ("__proto__", VBuiltin "Object.prototype");
    ("toLocaleString", VBuiltin "Object.prototype.toLocaleString") ].

(** [o[k]] on an object literal: the own property if there is one, else the
    inherited one, else [undefined]. *)
Definition getProp (k : string) (o : obj) : jsval :=
  match getOwn k o with
  | Some v => v
  | None =>
      match getOwn k objectPrototype with
      | Some v => v
      | None => VUndefined
      end
  end.

(** [v ?? d] (the model has no [null]). *)
Definition nullish (v d : jsval) : jsval :=
  match v with
  | VUndefined => d
  | _ => v
  end.

(** [o ?? d] for an optional input property. *)
Definition orElse {A : Type} (o : option A) (d : A) : A :=
  match o with
  | Some a => a
  | None => d
  end.

Definition optStr (o : option string) : jsval :=
  match o with
  | Some s => VStr s
  | None => VUndefined
  end.

(** [s.endsWith(suf)] *)
Fixpoint endsWith (s suf : string) : bool :=
  if String.eqb s suf then true
  else match s with
       | EmptyString => false
       | String _ s' => endsWith s' suf
       end.

(** [`${n}`] for an array length. *)
Definition showNat (n : nat) : string :=
  NilEmpty.string_of_uint (Nat.to_uint n).

(** [xs.push(x)] *)
Definition snoc {A : Type} (xs : list A) (x : A) : list A :=
  (xs ++ [x])%list.

(** [xs.join(sep)] on an array of strings. *)
Definition join (sep : string) (xs : list string) : string :=
  String.concat sep xs.

(* ================================================================== *)
(** * Input schema *)
(* ================================================================== *)

(** [fieldTypeEnum] *)
Inductive FieldType : Type :=
| Text | Number | Checkbox | Date | DateTime | Email | Phone | Url
| Currency | Percent | TextArea | LongTextArea | RichTextArea
| Picklist | MultiselectPicklist | Lookup | MasterDetail.

Definition fieldTypeName (t : FieldType) : string :=
  match t with
  | Text => "Text"
  | Number => "Number"
  | Checkbox => "Checkbox"
  | Date => "Date"
  | DateTime => "DateTime"
  | Email => "Email"
  | Phone => "Phone"
  | Url => "Url"
  | Currency => "Currency"
  | Percent => "Percent"
  | TextArea => "TextArea"
  | LongTextArea => "LongTextArea"
  | RichTextArea => "RichTextArea"
  | Picklist => "Picklist"
  | MultiselectPicklist => "MultiselectPicklist"
  | Lookup => "Lookup"
  | MasterDetail => "MasterDetail"
  end.

Definition allFieldTypes : list FieldType :=
  [ Text; Number; Checkbox; Date; DateTime; Email; Phone; Url; Currency;
    Percent; TextArea; LongTextArea; RichTextArea; Picklist;
    MultiselectPicklist; Lookup; MasterDetail ].

Inductive DeleteConstraint : Type := SetNull | Restrict | Cascade.

Definition deleteConstraintName (d : DeleteConstraint) : string :=
  match d with
  | SetNull => "SetNull"
  | Restrict => "Restrict"
  | Cascade => "Cascade"
  end.

(** [picklistValueSchema] *)
Module PicklistValue.
Record t : Type := mk {
  value : string;
  isDefault : option bool
}.
End PicklistValue.

(** [fieldDefinitionSchema] *)
Module FieldDefinition.
Record t : Type := mk {
  objectApiName : string;
  fieldApiName : string;
  label : string;
  type : FieldType;
  description : option string;
  helpText : option string;
  required : option bool;
  unique : option bool;
  externalId : option bool;
  length : option Q;
  precision : option Q;
  scale : option Q;
  visibleLines : option Q;
  picklistValues : option (list PicklistValue.t);
  referenceTo : option string;
  relationshipName : option string;
  relationshipLabel : option string;
  deleteConstraint : option DeleteConstraint
}.
End FieldDefinition.

(** [permissionAssignmentSchema] *)
Module PermissionAssignment.
Record t : Type := mk {
  permissionSetOrProfile : string;
  readable : bool;
  editable : bool
}.
End PermissionAssignment.

(* ================================================================== *)
(** * Field type mapper and field metadata builder *)
(* ================================================================== *)

Definition typeMap : obj :=
  [ ("Text", VStr "Text");
    ("Number", VStr "Number");
    ("Checkbox", VStr "Checkbox");
    ("Date", VStr "Date");
    ("DateTime", VStr "DateTime");
    ("Email", VStr "Email");
    ("Phone", VStr "Phone");
    ("Url", VStr "Url");
    ("Currency", VStr "Currency");
    ("Percent", VStr "Percent");
    ("TextArea", VStr "TextArea");
    ("LongTextArea", VStr "LongTextArea");
    ("RichTextArea", VStr "Html");
    ("Picklist", VStr "Picklist");
    ("MultiselectPicklist", VStr "MultiselectPicklist");
    ("Lookup", VStr "Lookup");
    ("MasterDetail", VStr "MasterDetail") ].

(** [mapFieldType]: [typeMap[type] ?? type]. *)
Definition mapFieldType (type : string) : jsval :=
  nullish (getProp type typeMap) (VStr type).

(** One entry of the value-set: [{fullName, default, label}]. *)
Definition picklistEntry (pv : PicklistValue.t) : jsval :=
  VObj [ ("fullName", VStr (PicklistValue.value pv));
         ("default", VBool (orElse (PicklistValue.isDefault pv) false));
         ("label", VStr (PicklistValue.value pv)) ].

Definition valueSetOf (pvs : list PicklistValue.t) : jsval :=
  VObj [ ("restricted", VBool true);
         ("valueSetDefinition",
           VObj [ ("sorted", VBool false);
                  ("value", VArr (map picklistEntry pvs)) ]) ].

(** The object literal that opens [buildFieldMetadata]. *)
Definition baseMetadata (field : FieldDefinition.t) : obj :=
  [ ("label", VStr (FieldDefinition.label field));
    ("type", mapFieldType (fieldTypeName (FieldDefinition.type field)));
    ("description", optStr (FieldDefinition.description field));
    ("inlineHelpText", optStr (FieldDefinition.helpText field));
    ("required", VBool (orElse (FieldDefinition.required field) false));
    ("unique", VBool (orElse (FieldDefinition.unique field) false));
    ("externalId", VBool (orElse (FieldDefinition.externalId field) false)) ].

(** The [switch (field.type)] of [buildFieldMetadata]. *)
Definition typeSpecific (field : FieldDefinition.t) (metadata : obj) : obj :=
  match FieldDefinition.type field with
  | Text =>
      setProp "length" (VNum (orElse (FieldDefinition.length field) 255%Q)) metadata
  | Number | Currency | Percent =>
      let metadata :=
        setProp "precision" (VNum (orElse (FieldDefinition.precision field) 18%Q)) metadata in
      setProp "scale" (VNum (orElse (FieldDefinition.scale field) 2%Q)) metadata
  | TextArea =>
      setProp "length" (VNum (orElse (FieldDefinition.length field) 255%Q)) metadata
  | LongTextArea | RichTextArea =>
      let metadata :=
        setProp "length" (VNum (orElse (FieldDefinition.length field) 32768%Q)) metadata in
      setProp "visibleLines" (VNum (orElse (FieldDefinition.visibleLines field) 6%Q)) metadata
  | Picklist | MultiselectPicklist =>
      let metadata :=
        match FieldDefinition.picklistValues field with
        | Some (pv :: pvs) => setProp "valueSet" (valueSetOf (pv :: pvs)) metadata
        | _ => metadata
        end in
      match FieldDefinition.type field with
      | MultiselectPicklist =>
          setProp "visibleLines"
            (VNum (orElse (FieldDefinition.visibleLines field) 4%Q)) metadata
      | _ => metadata
      end
  | Lookup | MasterDetail =>
      let metadata :=
        setProp "referenceTo" (optStr (FieldDefinition.referenceTo field)) metadata in
      let metadata :=
        setProp "relationshipName"
          (VStr (orElse (FieldDefinition.relationshipName field)
                   (FieldDefinition.fieldApiName field ++ "s"))) metadata in
      let metadata :=
        setProp "relationshipLabel"
          (VStr (orElse (FieldDefinition.relationshipLabel field)
                   (FieldDefinition.label field ++ "s"))) metadata in
      match FieldDefinition.type field with
      | Lookup =>
          setProp "deleteConstraint"
            (VStr (deleteConstraintName
                     (orElse (FieldDefinition.deleteConstraint field) SetNull)))
            metadata
      | _ => metadata
      end
  | _ => metadata
  end.

(** [buildFieldMetadata]: the base attributes, the type-specific ones, and
    last [Object.fromEntries(Object.entries(metadata).filter(v !== undefined))]. *)
Definition buildFieldMetadata (field : FieldDefinition.t) : obj :=
  filter (fun kv => isDefined (snd kv)) (typeSpecific field (baseMetadata field)).

(** The suffixing of [deployFieldsAndPermissions]'s [fields.map]. *)
Definition fullFieldName (field : FieldDefinition.t) : string :=
  if endsWith (FieldDefinition.fieldApiName field) "__c"
  then FieldDefinition.fieldApiName field
  else FieldDefinition.fieldApiName field ++ "__c".

(** One element of [metadataItems]:
    [{ type: 'CustomField', fullName: ..., ...this.buildFieldMetadata(field) }]. *)
Definition metadataItem (field : FieldDefinition.t) : obj :=
  spread (buildFieldMetadata field)
    [ ("type", VStr "CustomField");
      ("fullName",
        VStr (FieldDefinition.objectApiName field ++ "." ++ fullFieldName field)) ].

(* ================================================================== *)
(** * Effects: exceptions, remote calls, the working directory *)
(* ================================================================== *)

(** Thrown values.  The tool reads nothing of them but [message]. *)
Inductive exn : Type :=
| Error (message : string)
| TypeError (message : string).

Definition exnMessage (e : exn) : string :=
  match e with
  | Error m => m
  | TypeError m => m
  end.

(** The [TypeError] Node raises for [undefined.prop]. *)
Definition readOfUndefined (prop : string) : exn :=
  TypeError ("Cannot read properties of undefined (reading '" ++ prop ++ "')").

Inductive result (A : Type) : Type :=
| Return (a : A)
| Throw (e : exn).
Arguments Return {A} a.
Arguments Throw {A} e.

(** [T | T[]], what the metadata API answers and what [errors] holds. *)
Inductive oneOrMany (A : Type) : Type :=
| One (a : A)
| Many (l : list A).
Arguments One {A} a.
Arguments Many {A} l.

Module SaveError.
Record t : Type := mk {
  message : string
}.
End SaveError.

(** The outcome of the metadata API: [{fullName, success, errors?}]. *)
Module SaveResult.
Record t : Type := mk {
  success : bool;
  fullName : string;
  errors : option (oneOrMany SaveError.t)
}.
End SaveResult.

(** The remote calls the tool can make. *)
Inductive call : Type :=
| GetConnection (usernameOrAlias : string)
| MetadataCreate (type : string) (metadata : list obj)
| MetadataUpdate (type : string) (metadata : obj).

(** A connection: what [metadata.create] and [metadata.update] answer, or
    throw, given the calls made so far. *)
Record Connection : Type := {
  create : list call -> string -> list obj -> result (oneOrMany SaveResult.t);
  update : list call -> string -> obj -> result (oneOrMany SaveResult.t)
}.

(** [services.getOrgService().getConnection]. *)
Record Services : Type := {
  getConnection : list call -> string -> result Connection
}.

(** [process.chdir]: from the current directory and the argument, the new
    working directory, or the exception raised. *)
Record Process : Type := {
  chdir : string -> string -> result string
}.

(** What an invocation can observe and change outside itself. *)
Record World : Type := {
  cwd : string;
  calls : list call
}.

(** Computations over a state [S] that may throw; the state reached when an
    exception is thrown is kept, as mutations are in JavaScript. *)
Definition M (S A : Type) : Type := S -> S * result A.

Definition ret {S A : Type} (a : A) : M S A :=
  fun s => (s, Return a).

Definition throw {S A : Type} (e : exn) : M S A :=
  fun s => (s, Throw e).

Definition bind {S A B : Type} (m : M S A) (k : A -> M S B) : M S B :=
  fun s =>
    match m s with
    | (s', Return a) => k a s'
    | (s', Throw e) => (s', Throw e)
    end.

(** [try { m } catch (e) { h e }] *)
Definition tryCatch {S A : Type} (m : M S A) (h : exn -> M S A) : M S A :=
  fun s =>
    match m s with
    | (s', Return a) => (s', Return a)
    | (s', Throw e) => h e s'
    end.

Definition liftResult {S A : Type} (r : result A) : M S A :=
  fun s => (s, r).

Notation "x <- m ;; k" := (bind m (fun x => k))
  (at level 61, m at next level, right associativity).
Notation "m ;;; k" := (bind m (fun _ => k))
  (at level 61, right associativity).

(** [for (const x of xs) body] *)
Fixpoint forEach {S A : Type} (xs : list A) (body : A -> M S unit) : M S unit :=
  match xs with
  | [] => ret tt
  | x :: rest => body x ;;; forEach rest body
  end.

(** A remote call is logged, and answered from the calls made before it. *)
Definition remoteCall {A : Type} (c : call) (answer : list call -> result A)
  : M World A :=
  fun w => ({| cwd := cwd w; calls := snoc (calls w) c |}, answer (calls w)).

Definition metadataCreate (connection : Connection) (type : string)
  (metadata : list obj) : M World (oneOrMany SaveResult.t) :=
  remoteCall (MetadataCreate type metadata)
    (fun past => create connection past type metadata).

Definition metadataUpdate (connection : Connection) (type : string)
  (metadata : obj) : M World (oneOrMany SaveResult.t) :=
  remoteCall (MetadataUpdate type metadata)
    (fun past => update connection past type metadata).

Definition resolveConnection (services : Services) (usernameOrAlias : string)
  : M World Connection :=
  remoteCall (GetConnection usernameOrAlias)
    (fun past => getConnection services past usernameOrAlias).

Definition processChdir (process : Process) (directory : string) : M World unit :=
  fun w =>
    match chdir process (cwd w) directory with
    | Return d => ({| cwd := d; calls := calls w |}, Return tt)
    | Throw e => (w, Throw e)
    end.

(** [Array.isArray(x) ? x : [x]] *)
Definition toArray {A : Type} (x : oneOrMany A) : list A :=
  match x with
  | One a => [a]
  | Many l => l
  end.

(** [Array.isArray(x) ? x[0] : x]; [None] is [undefined]. *)
Definition firstOf {A : Type} (x : oneOrMany A) : option A :=
  match x with
  | One a => Some a
  | Many l => hd_error l
  end.

(** [Array.isArray(r.errors) ? r.errors : [r.errors]]; an absent [errors]
    gives the one-element array [[undefined]]. *)
Definition errorsArray (errors : option (oneOrMany SaveError.t))
  : list (option SaveError.t) :=
  match errors with
  | None => [None]
  | Some (One e) => [Some e]
  | Some (Many l) => map Some l
  end.

(** [errors.map(e => e.message)]: reading [message] of [undefined] throws. *)
Fixpoint messagesOf (errors : list (option SaveError.t)) : result (list string) :=
  match errors with
  | [] => Return []
  | None :: _ => Throw (readOfUndefined "message")
  | Some e :: rest =>
      match messagesOf rest with
      | Return ms => Return (SaveError.message e :: ms)
      | Throw x => Throw x
      end
  end.

(** [errors.map(e => e?.message).join(', ')]: [join] prints [undefined] as
    the empty string. *)
Definition joinOptionalMessages (errors : list (option SaveError.t)) : string :=
  join ", "
    (map (fun e => match e with
                   | Some e => SaveError.message e
                   | None => ""
                   end) errors).

Definition dq : string := String (ascii_of_nat 34) EmptyString.
Definition newline : string := String (ascii_of_nat 10) EmptyString.

(** Modelled from the spec: [textResponse] of [../shared/utils.js] is not
    part of the sources at hand; the spec says an invocation returns a text
    report plus an error flag, which is what this builds. *)
Record CallToolResult : Type := {
  text : string;
  isError : bool
}.

Definition textResponse (text : string) (isError : bool) : CallToolResult :=
  {| text := text; isError := isError |}.

(* ================================================================== *)
(** * The tool *)
(* ================================================================== *)

(** [createCustomFieldsParams].  [usernameOrAlias] and [directory] come from
    [../shared/params.js]; an absent identifier is [None]. *)
Module InputArgs.
Record t : Type := mk {
  fields : list FieldDefinition.t;
  permissions : option (list PermissionAssignment.t);
  usernameOrAlias : option string;
  directory : string
}.
End InputArgs.

(** [buildResultSummary] *)
Definition buildResultSummary (successFields failedFields : list string)
  (permissionResults : string) : string :=
  let parts : list string := [] in
  let parts :=
    if (0 <? List.length successFields)%nat
    then
      let parts :=
        snoc parts
          ("Successfully created " ++ showNat (List.length successFields) ++ " field(s):") in
      snoc parts (join newline (map (fun f => "  ✓ " ++ f) successFields))
    else parts in
  let parts :=
    if (0 <? List.length failedFields)%nat
    then
      let parts :=
        snoc parts
          (newline ++ "Failed to create " ++ showNat (List.length failedFields) ++ " field(s):") in
      snoc parts (join newline (map (fun f => "  ✗ " ++ f) failedFields))
    else parts in
  let parts :=
    if negb (String.eqb permissionResults "")
    then snoc (snoc parts (newline ++ "Permission assignments:")) permissionResults
    else parts in
  join newline parts.

(** The local state of [assignFieldPermissions]: the world and the
    [results] array. *)
Record Frame : Type := {
  world : World;
  results : list string
}.

Definition inWorld {A : Type} (m : M World A) : M Frame A :=
  fun f =>
    let (w, r) := m (world f) in
    ({| world := w; results := results f |}, r).

(** [results.push(line)] *)
Definition push (line : string) : M Frame unit :=
  fun f => ({| world := world f; results := snoc (results f) line |}, Return tt).

(** [r.success], [r.errors] where [r] may be [undefined]. *)
Definition readSuccess {S : Type} (r : option SaveResult.t) : M S bool :=
  match r with
  | Some r => ret (SaveResult.success r)
  | None => throw (readOfUndefined "success")
  end.

Definition readErrors {S : Type} (r : option SaveResult.t)
  : M S (option (oneOrMany SaveError.t)) :=
  match r with
  | Some r => ret (SaveResult.errors r)
  | None => throw (readOfUndefined "errors")
  end.

(** The argument of both [metadata.update] calls. *)
Definition permissionItem (fieldNames : list string)
  (perm : PermissionAssignment.t) : obj :=
  let fieldPermissions :=
    map (fun fieldName =>
           VObj [ ("field", VStr fieldName);
                  ("readable", VBool (PermissionAssignment.readable perm));
                  ("editable", VBool (PermissionAssignment.editable perm)) ])
      fieldNames in
  [ ("fullName", VStr (PermissionAssignment.permissionSetOrProfile perm));
    ("fieldPermissions", VArr fieldPermissions) ].

(** The block of the outer [try] in the loop of [assignFieldPermissions]:
    the attempt as a PermissionSet and its two fallbacks to a Profile. *)
Definition assignAttempt (connection : Connection) (fieldNames : list string)
  (perm : PermissionAssignment.t) : M Frame unit :=
  let name := PermissionAssignment.permissionSetOrProfile perm in
    (tryCatch
       (updateResult <- inWorld (metadataUpdate connection "PermissionSet"
                                   (permissionItem fieldNames perm)) ;;
        let result := firstOf updateResult in
        success <- readSuccess result ;;
        if success
        then push ("✓ Permission Set " ++ dq ++ name ++ dq ++ ": assigned")
        else
          profileResult <- inWorld (metadataUpdate connection "Profile"
                                      (permissionItem fieldNames perm)) ;;
          let pResult := firstOf profileResult in
          pSuccess <- readSuccess pResult ;;
          if pSuccess
          then push ("✓ Profile " ++ dq ++ name ++ dq ++ ": assigned")
          else
            pErrors <- readErrors pResult ;;
            let errors := errorsArray pErrors in
            push ("✗ " ++ dq ++ name ++ dq ++ ": " ++ joinOptionalMessages errors))
       (fun permSetError =>
          profileResult <- inWorld (metadataUpdate connection "Profile"
                                      (permissionItem fieldNames perm)) ;;
          let pResult := firstOf profileResult in
          pSuccess <- readSuccess pResult ;;
          if pSuccess
          then push ("✓ Profile " ++ dq ++ name ++ dq ++ ": assigned")
          else
            pErrors <- readErrors pResult ;;
            let errors := errorsArray pErrors in
            push ("✗ " ++ dq ++ name ++ dq ++ ": " ++ joinOptionalMessages errors))).

(** The body of the [for] loop of [assignFieldPermissions]. *)
Definition assignOne (connection : Connection) (fieldNames : list string)
  (perm : PermissionAssignment.t) : M Frame unit :=
  let name := PermissionAssignment.permissionSetOrProfile perm in
  tryCatch
    (assignAttempt connection fieldNames perm)
    (fun error =>
       push ("✗ " ++ dq ++ name ++ dq ++ ": " ++ exnMessage error)).

(** The loop of [assignFieldPermissions], on its [results] array. *)
Definition assignLoop (connection : Connection) (fieldNames : list string)
  (permissions : list PermissionAssignment.t) : M Frame unit :=
  forEach permissions (assignOne connection fieldNames).

(** [assignFieldPermissions] *)
Definition assignFieldPermissions (connection : Connection)
  (fieldNames : list string) (permissions : list PermissionAssignment.t)
  : M World string :=
  fun w =>
    match assignLoop connection fieldNames permissions {| world := w; results := [] |} with
    | (f, Return _) => (world f, Return (join newline (results f)))
    | (f, Throw e) => (world f, Throw e)
    end.

(** The [for (const result of results)] loop of [deployFieldsAndPermissions],
    from the arrays built so far. *)
Fixpoint partitionResults (results : list SaveResult.t)
  (successFields failedFields : list string) : result (list string * list string) :=
  match results with
  | [] => Return (successFields, failedFields)
  | result :: rest =>
      if SaveResult.success result
      then partitionResults rest (snoc successFields (SaveResult.fullName result))
             failedFields
      else
        match messagesOf (errorsArray (SaveResult.errors result)) with
        | Return messages =>
            partitionResults rest successFields
              (snoc failedFields
                 (SaveResult.fullName result ++ ": " ++ join ", " messages))
        | Throw e => Throw e
        end
  end.

(** [deployFieldsAndPermissions] *)
Definition deployFieldsAndPermissions (connection : Connection)
  (fields : list FieldDefinition.t)
  (permissions : option (list PermissionAssignment.t)) : M World CallToolResult :=
  let metadataItems := map metadataItem fields in
  deployResult <- metadataCreate connection "CustomField" metadataItems ;;
  let results := toArray deployResult in
  partition <- liftResult (partitionResults results [] []) ;;
  let successFields := fst partition in
  let failedFields := snd partition in
  permissionResults <-
    match permissions with
    | Some (p :: ps) =>
        if (0 <? List.length successFields)%nat
        then assignFieldPermissions connection successFields (p :: ps)
        else ret ""
    | _ => ret ""
    end ;;
  let summary := buildResultSummary successFields failedFields permissionResults in
  ret (textResponse summary (0 <? List.length failedFields)%nat).

(** [exec].  [!input.usernameOrAlias] holds of an absent identifier and of
    the empty string.  [SfError.wrap(error).message] is the message of the
    error wrapped. *)
Definition exec (process : Process) (services : Services) (input : InputArgs.t)
  : M World CallToolResult :=
  match InputArgs.usernameOrAlias input with
  | None | Some EmptyString =>
      ret (textResponse
             "The usernameOrAlias parameter is required. Use the #get_username tool if not specified."
             true)
  | Some usernameOrAlias =>
      processChdir process (InputArgs.directory input) ;;;
      tryCatch
        (connection <- resolveConnection services usernameOrAlias ;;
         deployFieldsAndPermissions connection (InputArgs.fields input)
           (InputArgs.permissions input))
        (fun error =>
           ret (textResponse ("Failed to create custom fields: " ++ exnMessage error) true))
  end.


(* ================================================================== *)
(** * Notions the properties are stated with *)
(* ================================================================== *)

(** The names an object literal answers to without owning them. *)
Definition inheritedNames : list string := map fst objectPrototype.

(** The 17 logical type names. *)
Definition logicalTypeNames : list string := map fieldTypeName allFieldTypes.

(** The keys of an object, in enumeration order. *)
Definition keys (o : obj) : list string := map fst o.

(** The metadata object of [buildFieldMetadata] before its last statement. *)
Definition rawMetadata (field : FieldDefinition.t) : obj :=
  typeSpecific field (baseMetadata field).

(** The outcome line of a grantee whose update as a Profile answered [r]:
    a success line naming the kind, or a failure line with the joined error
    messages, or with the message of what was thrown. *)
Definition profileLine (name : string) (r : result (oneOrMany SaveResult.t))
  : string :=
  match r with
  | Throw e => "✗ " ++ dq ++ name ++ dq ++ ": " ++ exnMessage e
  | Return answer =>
      match firstOf answer with
      | None =>
          "✗ " ++ dq ++ name ++ dq ++ ": " ++ exnMessage (readOfUndefined "success")
      | Some outcome =>
          if SaveResult.success outcome
          then "✓ Profile " ++ dq ++ name ++ dq ++ ": assigned"
          else "✗ " ++ dq ++ name ++ dq ++ ": "
                 ++ joinOptionalMessages (errorsArray (SaveResult.errors outcome))
      end
  end.

(** The update as a PermissionSet raised, or answered with [success: false]. *)
Definition permissionSetFailed (r : result (oneOrMany SaveResult.t)) : Prop :=
  (exists e, r = Throw e)
  \/ (exists answer outcome,
        r = Return answer /\ firstOf answer = Some outcome
        /\ SaveResult.success outcome = false).

(** The answer carries an outcome to read [success] from. *)
Definition hasOutcome (r : result (oneOrMany SaveResult.t)) : bool :=
  match r with
  | Return answer =>
      match firstOf answer with
      | Some _ => true
      | None => false
      end
  | Throw _ => false
  end.

(** What the loop body does for one grantee, read off its control flow: the
    calls logged after it and the line it pushes.  The update as a
    PermissionSet comes first; unless it answers success, the same item is
    sent as a Profile.  The fallback written in the [else] branch sits inside
    the inner [try], so when it yields no outcome to read the [catch] sends
    the item as a Profile once more. *)
Definition grantOutcome (connection : Connection) (fieldNames : list string)
  (perm : PermissionAssignment.t) (past : list call) : list call * string :=
  let name := PermissionAssignment.permissionSetOrProfile perm in
  let item := permissionItem fieldNames perm in
  let afterSet := snoc past (MetadataUpdate "PermissionSet" item) in
  let afterProfile := snoc afterSet (MetadataUpdate "Profile" item) in
  let afterSecondProfile := snoc afterProfile (MetadataUpdate "Profile" item) in
  let asProfile := update connection afterSet "Profile" item in
  match update connection past "PermissionSet" item with
  | Return answer =>
      match firstOf answer with
      | Some outcome =>
          if SaveResult.success outcome
          then (afterSet, "✓ Permission Set " ++ dq ++ name ++ dq ++ ": assigned")
          else if hasOutcome asProfile
               then (afterProfile, profileLine name asProfile)
               else (afterSecondProfile,
                      profileLine name (update connection afterProfile "Profile" item))
      | None => (afterProfile, profileLine name asProfile)
      end
  | Throw _ => (afterProfile, profileLine name asProfile)
  end.

(** A line of the permission report that belongs to grantee [perm]. *)
Definition lineOf (perm : PermissionAssignment.t) (line : string) : Prop :=
  let name := PermissionAssignment.permissionSetOrProfile perm in
  line = "✓ Permission Set " ++ dq ++ name ++ dq ++ ": assigned"
  \/ line = "✓ Profile " ++ dq ++ name ++ dq ++ ": assigned"
  \/ exists detail, line = "✗ " ++ dq ++ name ++ dq ++ ": " ++ detail.

(** [!input.usernameOrAlias] *)
Definition identifierMissing (input : InputArgs.t) : Prop :=
  InputArgs.usernameOrAlias input = None
  \/ InputArgs.usernameOrAlias input = Some "".

(* ================================================================== *)
(** * Sample inputs *)
(* ================================================================== *)

Definition sampleField (objectApiName fieldApiName : string) (type : FieldType)
  : FieldDefinition.t :=
  {| FieldDefinition.objectApiName := objectApiName;
     FieldDefinition.fieldApiName := fieldApiName;
     FieldDefinition.label := "Sample";
     FieldDefinition.type := type;
     FieldDefinition.description := None;
     FieldDefinition.helpText := None;
     FieldDefinition.required := None;
     FieldDefinition.unique := None;
     FieldDefinition.externalId := None;
     FieldDefinition.length := None;
     FieldDefinition.precision := None;
     FieldDefinition.scale := None;
     FieldDefinition.visibleLines := None;
     FieldDefinition.picklistValues := None;
     FieldDefinition.referenceTo := None;
     FieldDefinition.relationshipName := None;
     FieldDefinition.relationshipLabel := None;
     FieldDefinition.deleteConstraint := None |}.

Definition samplePicklist : FieldDefinition.t :=
  {| FieldDefinition.objectApiName := "Case";
     FieldDefinition.fieldApiName := "Stage";
     FieldDefinition.label := "Stage";
     FieldDefinition.type := Picklist;
     FieldDefinition.description := None;
     FieldDefinition.helpText := None;
     FieldDefinition.required := None;
     FieldDefinition.unique := None;
     FieldDefinition.externalId := None;
     FieldDefinition.length := None;
     FieldDefinition.precision := None;
     FieldDefinition.scale := None;
     FieldDefinition.visibleLines := None;
     FieldDefinition.picklistValues :=
       Some [ PicklistValue.mk "A" (Some true); PicklistValue.mk "B" None ];
     FieldDefinition.referenceTo := None;
     FieldDefinition.relationshipName := None;
     FieldDefinition.relationshipLabel := None;
     FieldDefinition.deleteConstraint := None |}.

Definition sampleOutcome (success : bool) (fullName : string) : SaveResult.t :=
  {| SaveResult.success := success;
     SaveResult.fullName := fullName;
     SaveResult.errors :=
       if success then None else Some (One (SaveError.mk "rejected")) |}.

(** A remote that answers a batch create with one single outcome. *)
Definition singleAnswerConnection : Connection :=
  {| create := fun _ _ _ => Return (One (sampleOutcome true "Account.Foo__c"));
     update := fun _ _ _ => Return (One (sampleOutcome true "Sales")) |}.

(** A remote that creates every field and rejects every update as a
    PermissionSet but accepts it as a Profile. *)
Definition profileOnlyConnection : Connection :=
  {| create := fun _ _ items =>
       Return (Many (map (fun item =>
                            match getOwn "fullName" item with
                            | Some (VStr n) => sampleOutcome true n
                            | _ => sampleOutcome false "?"
                            end) items));
     update := fun _ type _ =>
       if String.eqb type "Profile"
       then Return (One (sampleOutcome true "Sales"))
       else Return (One (sampleOutcome false "Sales")) |}.

(** A remote whose updates all raise. *)
Definition failingUpdateConnection : Connection :=
  {| create := create profileOnlyConnection;
     update := fun _ _ _ => Throw (Error "INVALID_SESSION") |}.

(** A remote that rejects the update as a PermissionSet and whose update as
    a Profile raises the first time and succeeds the second time. *)
Definition flakyProfileConnection : Connection :=
  {| create := create profileOnlyConnection;
     update := fun past type _ =>
       if String.eqb type "Profile"
       then match past with
            | [ _ ] => Throw (Error "ECONNRESET")
            | _ => Return (One (sampleOutcome true "Sales"))
            end
       else Return (One (sampleOutcome false "Sales")) |}.

(** A remote whose update as a PermissionSet raises and whose update as a
    Profile raises the first time and succeeds the second time. *)
Definition flakyProfileAfterRaiseConnection : Connection :=
  {| create := create profileOnlyConnection;
     update := fun past type _ =>
       if String.eqb type "Profile"
       then match past with
            | [ _ ] => Throw (Error "ECONNRESET")
            | _ => Return (One (sampleOutcome true "Sales"))
            end
       else Throw (Error "INVALID_TYPE") |}.

Definition twoFields : list FieldDefinition.t :=
  [ sampleField "Account" "Foo" Text; sampleField "Account" "Bar" Checkbox ].

(** A remote that reports two fields created and one rejected, in an order
    of its own, and whose updates all raise. *)
Definition mixedConnection : Connection :=
  {| create := fun _ _ _ =>
       Return (Many [ sampleOutcome true "Account.Baz__c";
                      sampleOutcome false "Account.Bar__c";
                      sampleOutcome true "Account.Foo__c" ]);
     update := fun _ _ _ => Throw (Error "INVALID_SESSION") |}.

Definition threeFields : list FieldDefinition.t :=
  [ sampleField "Account" "Foo" Text; sampleField "Account" "Bar" Checkbox;
    sampleField "Account" "Baz" Date ].

Definition sampleGrantee : PermissionAssignment.t :=
  {| PermissionAssignment.permissionSetOrProfile := "Sales";
     PermissionAssignment.readable := true;
     PermissionAssignment.editable := false |}.

Definition sampleServices (connection : Connection) : Services :=
  {| getConnection := fun _ _ => Return connection |}.

Definition sampleProcess : Process :=
  {| chdir := fun _ directory => Return directory |}.

Definition sampleWorld : World := {| cwd := "/home"; calls := [] |}.

Definition sampleInput (usernameOrAlias : option string) : InputArgs.t :=
  {| InputArgs.fields := [ sampleField "Account" "Foo" Text ];
     InputArgs.permissions := Some [ sampleGrantee ];
     InputArgs.usernameOrAlias := usernameOrAlias;
     InputArgs.directory := "/project" |}.

(* ================================================================== *)
(** * Further notions: payload shape, failure lines, grant calls *)
(* ================================================================== *)

(** Which optional properties each branch of the [switch] reads. *)
Definition usesLength (t : FieldType) : bool :=
  match t with
  | Text | TextArea | LongTextArea | RichTextArea => true
  | _ => false
  end.

Definition usesPrecisionScale (t : FieldType) : bool :=
  match t with
  | Number | Currency | Percent => true
  | _ => false
  end.

Definition usesVisibleLines (t : FieldType) : bool :=
  match t with
  | LongTextArea | RichTextArea | MultiselectPicklist => true
  | _ => false
  end.

Definition usesPicklistValues (t : FieldType) : bool :=
  match t with
  | Picklist | MultiselectPicklist => true
  | _ => false
  end.

Definition usesRelationship (t : FieldType) : bool :=
  match t with
  | Lookup | MasterDetail => true
  | _ => false
  end.

Definition usesDeleteConstraint (t : FieldType) : bool :=
  match t with
  | Lookup => true
  | _ => false
  end.

Definition keepIf {A : Type} (b : bool) (o : option A) : option A :=
  if b then o else None.

(** A field definition with the options its type does not read left out. *)
Definition consultedOnly (field : FieldDefinition.t) : FieldDefinition.t :=
  let t := FieldDefinition.type field in
  {| FieldDefinition.objectApiName := FieldDefinition.objectApiName field;
     FieldDefinition.fieldApiName := FieldDefinition.fieldApiName field;
     FieldDefinition.label := FieldDefinition.label field;
     FieldDefinition.type := t;
     FieldDefinition.description := FieldDefinition.description field;
     FieldDefinition.helpText := FieldDefinition.helpText field;
     FieldDefinition.required := FieldDefinition.required field;
     FieldDefinition.unique := FieldDefinition.unique field;
     FieldDefinition.externalId := FieldDefinition.externalId field;
     FieldDefinition.length := keepIf (usesLength t) (FieldDefinition.length field);
     FieldDefinition.precision :=
       keepIf (usesPrecisionScale t) (FieldDefinition.precision field);
     FieldDefinition.scale :=
       keepIf (usesPrecisionScale t) (FieldDefinition.scale field);
     FieldDefinition.visibleLines :=
       keepIf (usesVisibleLines t) (FieldDefinition.visibleLines field);
     FieldDefinition.picklistValues :=
       keepIf (usesPicklistValues t) (FieldDefinition.picklistValues field);
     FieldDefinition.referenceTo :=
       keepIf (usesRelationship t) (FieldDefinition.referenceTo field);
     FieldDefinition.relationshipName :=
       keepIf (usesRelationship t) (FieldDefinition.relationshipName field);
     FieldDefinition.relationshipLabel :=
       keepIf (usesRelationship t) (FieldDefinition.relationshipLabel field);
     FieldDefinition.deleteConstraint :=
       keepIf (usesDeleteConstraint t) (FieldDefinition.deleteConstraint field) |}.

(** [[k]] when the optional property is given, nothing otherwise. *)
Definition whenGiven {A : Type} (o : option A) (k : string) : list string :=
  match o with
  | Some _ => [k]
  | None => []
  end.

Definition whenValues (o : option (list PicklistValue.t)) (k : string)
  : list string :=
  match o with
  | Some (_ :: _) => [k]
  | _ => []
  end.

(** The attribute names of a payload, in order, by field type. *)
Definition payloadKeys (field : FieldDefinition.t) : list string :=
  (["label"; "type"]
     ++ whenGiven (FieldDefinition.description field) "description"
     ++ whenGiven (FieldDefinition.helpText field) "inlineHelpText"
     ++ ["required"; "unique"; "externalId"]
     ++ match FieldDefinition.type field with
        | Text | TextArea => ["length"]
        | Number | Currency | Percent => ["precision"; "scale"]
        | LongTextArea | RichTextArea => ["length"; "visibleLines"]
        | Picklist => whenValues (FieldDefinition.picklistValues field) "valueSet"
        | MultiselectPicklist =>
            whenValues (FieldDefinition.picklistValues field) "valueSet"
              ++ ["visibleLines"]
        | Lookup =>
            whenGiven (FieldDefinition.referenceTo field) "referenceTo"
              ++ ["relationshipName"; "relationshipLabel"; "deleteConstraint"]
        | MasterDetail =>
            whenGiven (FieldDefinition.referenceTo field) "referenceTo"
              ++ ["relationshipName"; "relationshipLabel"]
        | _ => []
        end)%list.

(** The remote type name of a logical type. *)
Definition remoteTypeName (t : FieldType) : string :=
  match t with
  | RichTextArea => "Html"
  | _ => fieldTypeName t
  end.

(** The line of [failedFields] for a failed outcome that carries errors. *)
Definition failureLine (outcome : SaveResult.t) : string :=
  SaveResult.fullName outcome ++ ": "
  ++ join ", "
       (map SaveError.message
          (match SaveResult.errors outcome with
           | Some errors => toArray errors
           | None => []
           end)).

Definition failed (outcome : SaveResult.t) : bool :=
  negb (SaveResult.success outcome).

Definition hasErrors (outcome : SaveResult.t) : bool :=
  match SaveResult.errors outcome with
  | Some _ => true
  | None => false
  end.

(** Every failed outcome says why. *)
Definition explained (results : list SaveResult.t) : bool :=
  forallb (fun outcome => SaveResult.success outcome || hasErrors outcome) results.

(** A call that grants the fields [fieldNames] to one of [permissions], as
    a PermissionSet or as a Profile. *)
Definition isGrantCall (fieldNames : list string)
  (permissions : list PermissionAssignment.t) (c : call) : Prop :=
  exists perm kind,
    In perm permissions
    /\ (kind = "PermissionSet" \/ kind = "Profile")
    /\ c = MetadataUpdate kind (permissionItem fieldNames perm).

(** What a grant call carries, spelled out: an update, as a PermissionSet
    or as a Profile, of an object that names one of the grantees under
    [fullName] and lists under [fieldPermissions] one entry per field, in
    the order of [fieldNames], each with the field's name and the grantee's
    two flags. *)
Definition carriesGrant (fieldNames : list string)
  (permissions : list PermissionAssignment.t) (c : call) : Prop :=
  exists perm kind entries,
    In perm permissions
    /\ (kind = "PermissionSet" \/ kind = "Profile")
    /\ c = MetadataUpdate kind
             [ ("fullName", VStr (PermissionAssignment.permissionSetOrProfile perm));
               ("fieldPermissions", VArr entries) ]
    /\ List.length entries = List.length fieldNames
    /\ forall (i : nat) (name : string),
         nth_error fieldNames i = Some name ->
         nth_error entries i
         = Some (VObj [ ("field", VStr name);
                        ("readable", VBool (PermissionAssignment.readable perm));
                        ("editable", VBool (PermissionAssignment.editable perm)) ]).

(** The remote answered with one outcome per submitted item: the fullNames
    of the outcomes are, in some order, the fullNames of the items. *)
Definition onePerField (fields : list FieldDefinition.t)
  (answer : oneOrMany SaveResult.t) : Prop :=
  Permutation
    (map (fun field => getOwn "fullName" (metadataItem field)) fields)
    (map (fun outcome => Some (VStr (SaveResult.fullName outcome)))
       (toArray answer)).


(** The world right after the create call of the orchestrator. *)
Definition afterCreate (w : World) (fields : list FieldDefinition.t) : World :=
  {| cwd := cwd w;
     calls := snoc (calls w)
                (MetadataCreate "CustomField" (map metadataItem fields)) |}.

(** The line pushed for a grantee granted as a PermissionSet. *)
Definition permissionSetLine (perm : PermissionAssignment.t) : string :=
  "✓ Permission Set " ++ dq
  ++ PermissionAssignment.permissionSetOrProfile perm ++ dq ++ ": assigned".

(** The first update made for a grantee. *)
Definition permissionSetCall (fieldNames : list string)
  (perm : PermissionAssignment.t) : call :=
  MetadataUpdate "PermissionSet" (permissionItem fieldNames perm).

(** The update as a PermissionSet answers success, whatever came before. *)
Definition acceptsPermissionSets (connection : Connection) : Prop :=
  forall past item,
    exists answer outcome,
      update connection past "PermissionSet" item = Return answer
      /\ firstOf answer = Some outcome
      /\ SaveResult.success outcome = true.

(** The permissions asked for; none when the property is absent. *)
Definition requested (permissions : option (list PermissionAssignment.t))
  : list PermissionAssignment.t :=
  match permissions with
  | Some ps => ps
  | None => []
  end.

(* ================================================================== *)
(** * Further sample inputs *)
(* ================================================================== *)

Definition sampleLookup : FieldDefinition.t :=
  {| FieldDefinition.objectApiName := "Case";
     FieldDefinition.fieldApiName := "Owner";
     FieldDefinition.label := "Owner";
     FieldDefinition.type := Lookup;
     FieldDefinition.description := Some "Who owns the case";
     FieldDefinition.helpText := None;
     FieldDefinition.required := Some true;
     FieldDefinition.unique := None;
     FieldDefinition.externalId := None;
     FieldDefinition.length := Some 80%Q;
     FieldDefinition.precision := None;
     FieldDefinition.scale := None;
     FieldDefinition.visibleLines := Some 3%Q;
     FieldDefinition.picklistValues := None;
     FieldDefinition.referenceTo := Some "Account";
     FieldDefinition.relationshipName := None;
     FieldDefinition.relationshipLabel := None;
     FieldDefinition.deleteConstraint := None |}.

(** A remote that creates every field and accepts every update. *)
Definition acceptingConnection : Connection :=
  {| create := create profileOnlyConnection;
     update := fun _ _ _ => Return (One (sampleOutcome true "Sales")) |}.

(** A remote whose create call raises. *)
Definition raisingCreateConnection : Connection :=
  {| create := fun _ _ _ => Throw (Error "REQUEST_LIMIT_EXCEEDED");
     update := update acceptingConnection |}.

(** A remote that flags one field unsuccessful without saying why. *)
Definition silentFailureConnection : Connection :=
  {| create := fun _ _ _ =>
       Return (Many [ sampleOutcome true "Account.Foo__c";
                      {| SaveResult.success := false;
                         SaveResult.fullName := "Account.Bar__c";
                         SaveResult.errors := None |} ]);
     update := update acceptingConnection |}.

Definition raisingServices : Services :=
  {| getConnection := fun _ _ => Throw (Error "No authorization found") |}.

Definition raisingProcess : Process :=
  {| chdir := fun _ _ => Throw (Error "ENOENT: no such file or directory") |}.

Definition secondGrantee : PermissionAssignment.t :=
  {| PermissionAssignment.permissionSetOrProfile := "Support";
     PermissionAssignment.readable := true;
     PermissionAssignment.editable := true |}.

(* ================================================================== *)
(** * Strings and objects *)
(* ================================================================== *)

(** [endsWith] decides "has this suffix". *)
Lemma endsWith_spec (s suf : string) :
  endsWith s suf = true <-> exists p, s = p ++ suf.
Proof.
  induction s as [| c s IH]; cbn [endsWith].
  - destruct (String.eqb_spec "" suf) as [E | E].
    + split; [intros _; exists ""; now subst | reflexivity].
    + split; [discriminate |].
      intros [p Hp]. destruct p; simpl in Hp; [congruence | discriminate].
  - destruct (String.eqb_spec (String c s) suf) as [E | E].
    + split; [intros _; exists ""; now subst | reflexivity].
    + rewrite IH. split.
      * intros [p Hp]. exists (String c p). simpl. now rewrite Hp.
      * intros [p Hp]. destruct p as [| c' p]; simpl in Hp.
        -- congruence.
        -- injection Hp as _ Hp. now exists p.
Qed.

Lemma getOwn_notin (k : string) (o : obj) :
  ~ In k (keys o) -> getOwn k o = None.
Proof.
  induction o as [| [k' v] o IH]; simpl; intros H; [reflexivity |].
  destruct (String.eqb_spec k' k) as [E | E].
  - exfalso. apply H. now left.
  - apply IH. intros Hin. apply H. now right.
Qed.

Lemma getOwn_in (k : string) (o : obj) :
  In k (keys o) -> exists v, getOwn k o = Some v.
Proof.
  induction o as [| [k' v] o IH]; simpl; intros H; [contradiction |].
  destruct (String.eqb_spec k' k) as [E | E]; [now exists v |].
  destruct H as [H | H]; [contradiction | now apply IH].
Qed.

Lemma getOwn_setProp_other (k k' : string) (v : jsval) (o : obj) :
  k' <> k -> getOwn k (setProp k' v o) = getOwn k o.
Proof.
  intros Hne. induction o as [| [k0 v0] o IH]; simpl.
  - destruct (String.eqb_spec k' k); [contradiction | reflexivity].
  - destruct (String.eqb_spec k0 k') as [E | E]; simpl.
    + subst k0. destruct (String.eqb_spec k' k); [contradiction | reflexivity].
    + destruct (String.eqb_spec k0 k); [reflexivity | exact IH].
Qed.

Lemma keys_setProp (k : string) (v : jsval) (o : obj) :
  keys (setProp k v o) = if existsb (String.eqb k) (keys o) then keys o else snoc (keys o) k.
Proof.
  unfold keys.
  induction o as [| [k0 v0] o IH]; simpl; [reflexivity |].
  rewrite (String.eqb_sym k k0).
  destruct (String.eqb_spec k0 k) as [E | E]; simpl; [reflexivity |].
  rewrite IH.
  destruct (existsb (String.eqb k) (map fst o)); reflexivity.
Qed.

(** Assigning a property never duplicates a key. *)
Lemma NoDup_keys_setProp (k : string) (v : jsval) (o : obj) :
  NoDup (keys o) -> NoDup (keys (setProp k v o)).
Proof.
  intros H. rewrite keys_setProp.
  destruct (existsb (String.eqb k) (keys o)) eqn:E; [exact H |].
  unfold snoc. apply NoDup_app; [exact H | repeat constructor; intros [] | ].
  intros x Hx [Hk | []]. subst x.
  assert (existsb (String.eqb k) (keys o) = true); [| congruence].
  apply existsb_exists. exists k. split; [exact Hx | apply String.eqb_refl].
Qed.

(** Spreading [src] over [dst] leaves alone what [src] does not define. *)
Lemma getOwn_spread_other (k : string) (src dst : obj) :
  ~ In k (keys src) -> getOwn k (spread src dst) = getOwn k dst.
Proof.
  unfold spread. revert dst.
  induction src as [| [k' v] src IH]; simpl; intros dst H; [reflexivity |].
  rewrite IH by (intros Hin; apply H; now right).
  apply getOwn_setProp_other. intros E. apply H. now left.
Qed.

(** Filtering out the undefined values of an object without duplicate keys
    removes exactly the properties that are undefined. *)
Lemma getOwn_filter_defined (k : string) (o : obj) :
  NoDup (keys o) ->
  getOwn k (filter (fun kv => isDefined (snd kv)) o)
  = match getOwn k o with
    | Some VUndefined => None
    | other => other
    end.
Proof.
  induction o as [| [k' v] o IH]; simpl; intros H; [reflexivity |].
  inversion H as [| ? ? Hnotin Hnd]; subst.
  destruct (String.eqb_spec k' k) as [E | E].
  - subst k'. destruct v; simpl; rewrite ?String.eqb_refl; try reflexivity.
    apply getOwn_notin. intros Hin. apply Hnotin.
    unfold keys in *. rewrite in_map_iff in *.
    destruct Hin as [x [Hx Hin]]. exists x. split; [exact Hx |].
    now apply filter_In in Hin.
  - destruct (isDefined v); simpl.
    + destruct (String.eqb_spec k' k); [contradiction | now apply IH].
    + now apply IH.
Qed.

Lemma getOwn_setProp_same (k : string) (v : jsval) (o : obj) :
  getOwn k (setProp k v o) = Some v.
Proof.
  induction o as [| [k0 v0] o IH]; simpl.
  - now rewrite String.eqb_refl.
  - destruct (String.eqb_spec k0 k) as [E | E]; simpl.
    + subst k0. now rewrite String.eqb_refl.
    + destruct (String.eqb_spec k0 k); [contradiction | exact IH].
Qed.

Lemma getOwn_none_notin (k : string) (o : obj) :
  getOwn k o = None -> ~ In k (keys o).
Proof.
  intros H Hin. destruct (getOwn_in k o Hin) as [v Hv]. congruence.
Qed.

(* ================================================================== *)
(** * The field type mapper *)
(* ================================================================== *)

Lemma typeMap_keys : keys typeMap = logicalTypeNames.
Proof. reflexivity. Qed.

(** On the 17 logical names the mapper answers ["Html"] for RichTextArea and
    the name itself for the others. *)
Lemma mapFieldType_logical (t : FieldType) :
  mapFieldType (fieldTypeName t)
  = VStr (match t with
          | RichTextArea => "Html"
          | _ => fieldTypeName t
          end).
Proof. destruct t; reflexivity. Qed.

(** A name that the table does not own and [Object.prototype] does not
    define comes back unchanged. *)
Lemma mapFieldType_unknown (name : string) :
  ~ In name logicalTypeNames -> ~ In name inheritedNames ->
  mapFieldType name = VStr name.
Proof.
  intros Hlog Hinh. unfold mapFieldType, getProp.
  rewrite (getOwn_notin name typeMap) by (now rewrite typeMap_keys).
  rewrite (getOwn_notin name objectPrototype) by exact Hinh.
  reflexivity.
Qed.

(** What holds of the mapper on every input: RichTextArea goes to "Html",
    each of the other 16 logical names to itself, and a name that is neither
    a logical name nor a property inherited from Object.prototype comes back
    unchanged. *)
Lemma mapFieldType_table :
  (forall t : FieldType,
      mapFieldType (fieldTypeName t)
      = VStr (match t with
              | RichTextArea => "Html"
              | _ => fieldTypeName t
              end))
  /\ (forall name : string,
         ~ In name logicalTypeNames -> ~ In name inheritedNames ->
         mapFieldType name = VStr name).
Proof.
  split; [exact mapFieldType_logical | exact mapFieldType_unknown].
Qed.

Example mapFieldType_Html_and_Formula :
  mapFieldType "RichTextArea" = VStr "Html"
  /\ mapFieldType "Formula" = VStr "Formula".
Proof.
  split.
  - exact (proj1 mapFieldType_table RichTextArea).
  - apply (proj2 mapFieldType_table "Formula").
    + unfold logicalTypeNames; simpl; intuition discriminate.
    + unfold inheritedNames; simpl; intuition discriminate.
Qed.


(* ================================================================== *)
(** * The field metadata builder *)
(* ================================================================== *)

Lemma NoDup_keys_baseMetadata (field : FieldDefinition.t) :
  NoDup (keys (baseMetadata field)).
Proof.
  unfold keys, baseMetadata; simpl.
  repeat (constructor; [simpl; intuition discriminate |]).
  constructor.
Qed.

Lemma NoDup_keys_rawMetadata (field : FieldDefinition.t) :
  NoDup (keys (rawMetadata field)).
Proof.
  pose proof (NoDup_keys_baseMetadata field) as Hbase.
  unfold rawMetadata, typeSpecific.
  destruct (FieldDefinition.type field);
    try destruct (FieldDefinition.picklistValues field) as [[| pv pvs] |];
    repeat apply NoDup_keys_setProp; exact Hbase.
Qed.

(** What the builder returns under a key: what the metadata object held,
    unless that was [undefined]. *)
Lemma buildFieldMetadata_lookup (field : FieldDefinition.t) (k : string) :
  getOwn k (buildFieldMetadata field)
  = match getOwn k (rawMetadata field) with
    | Some VUndefined => None
    | other => other
    end.
Proof.
  unfold buildFieldMetadata.
  apply (getOwn_filter_defined k (rawMetadata field)).
  apply NoDup_keys_rawMetadata.
Qed.

(** Looking up a key of the metadata object that the type-specific branch
    does not assign. *)
Ltac lookup_base :=
  unfold rawMetadata, typeSpecific;
  match goal with
  | |- context [FieldDefinition.type ?f] => destruct (FieldDefinition.type f)
  end;
  try match goal with
      | |- context [FieldDefinition.picklistValues ?f] =>
          destruct (FieldDefinition.picklistValues f) as [[| ? ?] |]
      end;
  repeat rewrite getOwn_setProp_other by discriminate;
  reflexivity.

Lemma rawMetadata_description (field : FieldDefinition.t) :
  getOwn "description" (rawMetadata field)
  = Some (optStr (FieldDefinition.description field)).
Proof. lookup_base. Qed.

Lemma rawMetadata_inlineHelpText (field : FieldDefinition.t) :
  getOwn "inlineHelpText" (rawMetadata field)
  = Some (optStr (FieldDefinition.helpText field)).
Proof. lookup_base. Qed.

Lemma rawMetadata_fullName (field : FieldDefinition.t) :
  getOwn "fullName" (rawMetadata field) = None.
Proof. lookup_base. Qed.

Lemma rawMetadata_valueSet (field : FieldDefinition.t)
  (pv : PicklistValue.t) (pvs : list PicklistValue.t) :
  FieldDefinition.type field = Picklist
  \/ FieldDefinition.type field = MultiselectPicklist ->
  FieldDefinition.picklistValues field = Some (pv :: pvs) ->
  getOwn "valueSet" (rawMetadata field) = Some (valueSetOf (pv :: pvs)).
Proof.
  intros [Ht | Ht] Hpv; unfold rawMetadata, typeSpecific; rewrite Ht, Hpv.
  - apply getOwn_setProp_same.
  - rewrite getOwn_setProp_other by discriminate. apply getOwn_setProp_same.
Qed.

(** C5: for a Picklist or MultiselectPicklist field with a non-empty
    picklistValues, the payload holds under "valueSet" a restricted value-set
    whose definition is unsorted and has one entry per input value, in input
    order, entry i being {fullName: value_i, default: isDefault_i or false,
    label: value_i}. *)
Theorem C5_picklist_valueSet (field : FieldDefinition.t)
  (pv : PicklistValue.t) (pvs : list PicklistValue.t) :
  FieldDefinition.type field = Picklist
  \/ FieldDefinition.type field = MultiselectPicklist ->
  FieldDefinition.picklistValues field = Some (pv :: pvs) ->
  exists entries : list jsval,
    getOwn "valueSet" (buildFieldMetadata field)
    = Some (VObj [ ("restricted", VBool true);
                   ("valueSetDefinition",
                     VObj [ ("sorted", VBool false);
                            ("value", VArr entries) ]) ])
    /\ List.length entries = List.length (pv :: pvs)
    /\ forall (i : nat) (p : PicklistValue.t),
         nth_error (pv :: pvs) i = Some p ->
         nth_error entries i
         = Some (VObj [ ("fullName", VStr (PicklistValue.value p));
                        ("default",
                          VBool (match PicklistValue.isDefault p with
                                 | Some b => b
                                 | None => false
                                 end));
                        ("label", VStr (PicklistValue.value p)) ]).
Proof.
  intros Ht Hpv. exists (map picklistEntry (pv :: pvs)).
  split; [| split].
  - rewrite buildFieldMetadata_lookup, (rawMetadata_valueSet field pv pvs Ht Hpv).
    reflexivity.
  - apply length_map.
  - intros i p Hi. rewrite nth_error_map, Hi. reflexivity.
Qed.

(** C5, witness: the picklist [{value:"A", isDefault:true}, {value:"B"}]
    gives two entries in that order, defaults true then false. *)
Lemma C5_picklist_valueSet_witness :
  exists entries : list jsval,
    getOwn "valueSet" (buildFieldMetadata samplePicklist)
    = Some (VObj [ ("restricted", VBool true);
                   ("valueSetDefinition",
                     VObj [ ("sorted", VBool false);
                            ("value", VArr entries) ]) ])
    /\ List.length entries = 2
    /\ forall (i : nat) (p : PicklistValue.t),
         nth_error [ PicklistValue.mk "A" (Some true); PicklistValue.mk "B" None ] i
         = Some p ->
         nth_error entries i
         = Some (VObj [ ("fullName", VStr (PicklistValue.value p));
                        ("default",
                          VBool (match PicklistValue.isDefault p with
                                 | Some b => b
                                 | None => false
                                 end));
                        ("label", VStr (PicklistValue.value p)) ]).
Proof.
  apply (C5_picklist_valueSet samplePicklist
           (PicklistValue.mk "A" (Some true)) [ PicklistValue.mk "B" None ]).
  - left. reflexivity.
  - reflexivity.
Defined.

(** The example of the spec, evaluated. *)
Example picklist_A_B :
  getOwn "valueSet" (buildFieldMetadata samplePicklist)
  = Some (VObj [ ("restricted", VBool true);
                 ("valueSetDefinition",
                   VObj [ ("sorted", VBool false);
                          ("value",
                            VArr [ VObj [ ("fullName", VStr "A");
                                          ("default", VBool true);
                                          ("label", VStr "A") ];
                                   VObj [ ("fullName", VStr "B");
                                          ("default", VBool false);
                                          ("label", VStr "B") ] ]) ]) ]).
Proof. reflexivity. Qed.

(** C6: the payload of the builder has no entry whose value is undefined;
    an attribute that resolved to undefined in the metadata object (such as
    an omitted description or helpText) is not a key of the payload, and an
    attribute that resolved to a value is kept with that value. *)
Theorem C6_no_undefined_entry (field : FieldDefinition.t) :
  Forall (fun kv => snd kv <> VUndefined) (buildFieldMetadata field)
  /\ (forall k : string,
         getOwn k (rawMetadata field) = Some VUndefined ->
         ~ In k (keys (buildFieldMetadata field)))
  /\ (forall (k : string) (v : jsval),
         getOwn k (rawMetadata field) = Some v -> v <> VUndefined ->
         getOwn k (buildFieldMetadata field) = Some v)
  /\ (FieldDefinition.description field = None ->
      ~ In "description" (keys (buildFieldMetadata field)))
  /\ (FieldDefinition.helpText field = None ->
      ~ In "inlineHelpText" (keys (buildFieldMetadata field))).
Proof.
  assert (Hdrop : forall k : string,
             getOwn k (rawMetadata field) = Some VUndefined ->
             ~ In k (keys (buildFieldMetadata field))).
  { intros k Hk. apply getOwn_none_notin.
    rewrite buildFieldMetadata_lookup, Hk. reflexivity. }
  split; [| split; [exact Hdrop | split; [| split]]].
  - apply Forall_forall. intros [k v] Hin. unfold buildFieldMetadata in Hin.
    apply filter_In in Hin. destruct Hin as [_ Hdef]. simpl in *.
    intros E. subst v. discriminate.
  - intros k v Hk Hv. rewrite buildFieldMetadata_lookup, Hk.
    destruct v; try reflexivity. contradiction.
  - intros Hnone. apply Hdrop.
    rewrite rawMetadata_description, Hnone. reflexivity.
  - intros Hnone. apply Hdrop.
    rewrite rawMetadata_inlineHelpText, Hnone. reflexivity.
Qed.

(** C6, witness: a Text field given neither description nor helpText. *)
Lemma C6_no_undefined_entry_witness :
  Forall (fun kv => snd kv <> VUndefined)
    (buildFieldMetadata (sampleField "Account" "Foo" Text))
  /\ ~ In "description" (keys (buildFieldMetadata (sampleField "Account" "Foo" Text)))
  /\ ~ In "inlineHelpText" (keys (buildFieldMetadata (sampleField "Account" "Foo" Text)))
  /\ getOwn "length" (buildFieldMetadata (sampleField "Account" "Foo" Text))
     = Some (VNum 255%Q).
Proof.
  pose proof (C6_no_undefined_entry (sampleField "Account" "Foo" Text))
    as [Hall [_ [Hkeep [Hdesc Hhelp]]]].
  split; [exact Hall | split; [| split]].
  - apply Hdesc. reflexivity.
  - apply Hhelp. reflexivity.
  - apply Hkeep; [reflexivity | discriminate].
Defined.

(* ================================================================== *)
(** * The submitted full name *)
(* ================================================================== *)

Lemma buildFieldMetadata_no_fullName (field : FieldDefinition.t) :
  ~ In "fullName" (keys (buildFieldMetadata field)).
Proof.
  apply getOwn_none_notin.
  rewrite buildFieldMetadata_lookup, rawMetadata_fullName. reflexivity.
Qed.

(** The spread of the payload does not touch [fullName]. *)
Lemma metadataItem_fullName (field : FieldDefinition.t) :
  getOwn "fullName" (metadataItem field)
  = Some (VStr (FieldDefinition.objectApiName field ++ "." ++ fullFieldName field)).
Proof.
  unfold metadataItem.
  rewrite getOwn_spread_other by apply buildFieldMetadata_no_fullName.
  reflexivity.
Qed.

(** C3: the fullName submitted for a field is objectApiName, a dot, and the
    fieldApiName, to which "__c" is appended exactly when it does not end in
    "__c" already; so "Foo" on "Object" gives "Object.Foo__c", and so does
    "Foo__c". *)
Theorem C3_fullName_suffix (field : FieldDefinition.t) :
  let object := FieldDefinition.objectApiName field in
  let name := FieldDefinition.fieldApiName field in
  ((exists stem, name = stem ++ "__c") ->
   getOwn "fullName" (metadataItem field) = Some (VStr (object ++ "." ++ name)))
  /\ (~ (exists stem, name = stem ++ "__c") ->
      getOwn "fullName" (metadataItem field)
      = Some (VStr (object ++ "." ++ name ++ "__c")))
  /\ (object = "Object" -> name = "Foo" ->
      getOwn "fullName" (metadataItem field) = Some (VStr "Object.Foo__c"))
  /\ (object = "Object" -> name = "Foo__c" ->
      getOwn "fullName" (metadataItem field) = Some (VStr "Object.Foo__c")).
Proof.
  intros object name. rewrite metadataItem_fullName. unfold fullFieldName.
  fold object name.
  split; [| split; [| split]].
  - intros Hsuf. apply endsWith_spec in Hsuf. now rewrite Hsuf.
  - intros Hnot. destruct (endsWith name "__c") eqn:E; [| reflexivity].
    exfalso. apply Hnot. now apply endsWith_spec.
  - intros -> ->. reflexivity.
  - intros -> ->. reflexivity.
Qed.

(** C3, witness: "Foo" and "Foo__c" on "Object". *)
Lemma C3_fullName_suffix_witness :
  getOwn "fullName" (metadataItem (sampleField "Object" "Foo" Text))
  = Some (VStr "Object.Foo__c")
  /\ getOwn "fullName" (metadataItem (sampleField "Object" "Foo__c" Text))
     = Some (VStr "Object.Foo__c").
Proof.
  split.
  - destruct (C3_fullName_suffix (sampleField "Object" "Foo" Text))
      as [_ [Happend _]].
    apply Happend. intros [stem Hstem].
    apply (f_equal (fun s => endsWith s "__c")) in Hstem.
    rewrite (proj2 (endsWith_spec (stem ++ "__c") "__c")) in Hstem
      by (now exists stem).
    discriminate Hstem.
  - destruct (C3_fullName_suffix (sampleField "Object" "Foo__c" Text))
      as [Hkeep _].
    apply Hkeep. exists "Foo". reflexivity.
Defined.

(* ================================================================== *)
(** * The permission assignment engine *)
(* ================================================================== *)

Ltac run_step :=
  cbn -[permissionItem append snoc update];
  match goal with
  | |- context [match update ?c ?p ?t ?i with _ => _ end] =>
      destruct (update c p t i) eqn:?
  | |- context [firstOf ?a] => destruct (firstOf a) eqn:?
  | |- context [SaveResult.success ?s] => destruct (SaveResult.success s) eqn:?
  end.

Ltac run_all :=
  repeat run_step; cbn -[permissionItem append snoc update];
  try reflexivity; try congruence.

(** The loop body always completes: it logs the calls and pushes the one
    line that [grantOutcome] describes. *)
Lemma assignOne_outcome (connection : Connection) (fieldNames : list string)
  (perm : PermissionAssignment.t) (f : Frame) :
  assignOne connection fieldNames perm f
  = ({| world :=
          {| cwd := cwd (world f);
             calls := fst (grantOutcome connection fieldNames perm (calls (world f))) |};
        results :=
          snoc (results f)
            (snd (grantOutcome connection fieldNames perm (calls (world f)))) |},
     Return tt).
Proof.
  unfold assignOne, assignAttempt, grantOutcome, profileLine, hasOutcome,
    tryCatch, bind, inWorld, metadataUpdate, remoteCall, readSuccess,
    readErrors, push, ret, throw.
  run_all.
Qed.

(** An exception leaves the block of the outer [try] before any line was
    pushed. *)
Lemma assignAttempt_throw_results (connection : Connection)
  (fieldNames : list string) (perm : PermissionAssignment.t) (f f' : Frame)
  (e : exn) :
  assignAttempt connection fieldNames perm f = (f', Throw e) ->
  results f' = results f.
Proof.
  unfold assignAttempt, tryCatch, bind, inWorld, metadataUpdate, remoteCall,
    readSuccess, readErrors, push, ret, throw.
  repeat run_step; cbn -[permissionItem append snoc update];
    intros H; inversion H; reflexivity.
Qed.

Lemma profileLine_lineOf (perm : PermissionAssignment.t)
  (r : result (oneOrMany SaveResult.t)) :
  lineOf perm (profileLine (PermissionAssignment.permissionSetOrProfile perm) r).
Proof.
  unfold lineOf, profileLine.
  destruct r as [answer | e].
  - destruct (firstOf answer) as [outcome |].
    + destruct (SaveResult.success outcome).
      * right; left; reflexivity.
      * right; right; eexists; reflexivity.
    + right; right; eexists; reflexivity.
  - right; right; eexists; reflexivity.
Qed.

Lemma grantOutcome_lineOf (connection : Connection) (fieldNames : list string)
  (perm : PermissionAssignment.t) (past : list call) :
  lineOf perm (snd (grantOutcome connection fieldNames perm past)).
Proof.
  unfold grantOutcome.
  destruct (update connection past "PermissionSet" _) as [answer | e];
    [destruct (firstOf answer) as [outcome |];
     [destruct (SaveResult.success outcome);
      [left; reflexivity | destruct (hasOutcome _)] |] |];
    apply profileLine_lineOf.
Qed.

(** The calls of one grantee extend the log, starting with the update as a
    PermissionSet. *)
Lemma grantOutcome_calls (connection : Connection) (fieldNames : list string)
  (perm : PermissionAssignment.t) (past : list call) :
  exists later,
    fst (grantOutcome connection fieldNames perm past)
    = (past ++ MetadataUpdate "PermissionSet" (permissionItem fieldNames perm)
         :: later)%list.
Proof.
  unfold grantOutcome, snoc.
  destruct (update connection past "PermissionSet" _) as [answer | e];
    [destruct (firstOf answer) as [outcome |];
     [destruct (SaveResult.success outcome); [| destruct (hasOutcome _)] |] |];
    cbn [fst]; repeat rewrite <- app_assoc; cbn [app]; eexists; reflexivity.
Qed.

(** The loop: one line per grantee, in order, after the lines already there;
    the log only grows and holds each grantee's update as a PermissionSet. *)
Lemma assignLoop_outcome (connection : Connection) (fieldNames : list string)
  (permissions : list PermissionAssignment.t) (f : Frame) :
  exists (later : list call) (lines : list string),
    assignLoop connection fieldNames permissions f
    = ({| world := {| cwd := cwd (world f);
                      calls := (calls (world f) ++ later)%list |};
          results := (results f ++ lines)%list |}, Return tt)
    /\ Forall2 lineOf permissions lines
    /\ forall perm, In perm permissions ->
         In (MetadataUpdate "PermissionSet" (permissionItem fieldNames perm)) later.
Proof.
  revert f. unfold assignLoop.
  induction permissions as [| perm rest IH]; intros f.
  - exists [], []. cbn. rewrite !app_nil_r. destruct f as [[c k] r].
    repeat split; [constructor | contradiction].
  - cbn [forEach]. unfold bind at 1. rewrite assignOne_outcome.
    destruct (grantOutcome_calls connection fieldNames perm (calls (world f)))
      as [later1 Hcalls].
    pose proof (grantOutcome_lineOf connection fieldNames perm (calls (world f)))
      as Hline.
    destruct (grantOutcome connection fieldNames perm (calls (world f)))
      as [calls1 line1].
    cbn [fst snd] in *. subst calls1.
    match goal with
    | |- context [forEach rest _ ?f1] => destruct (IH f1) as [later2 [lines2 [Hrun [Hlines Hin]]]]
    end.
    exists (MetadataUpdate "PermissionSet" (permissionItem fieldNames perm)
              :: later1 ++ later2)%list, (line1 :: lines2).
    split; [| split].
    + rewrite Hrun. cbn [world results cwd calls]. unfold snoc.
      repeat rewrite <- app_assoc. reflexivity.
    + constructor; assumption.
    + intros p [Hp | Hp].
      * subst p. now left.
      * right. apply in_or_app. right. now apply Hin.
Qed.

(** [assignFieldPermissions] always returns. *)
Lemma assignFieldPermissions_outcome (connection : Connection)
  (fieldNames : list string) (permissions : list PermissionAssignment.t)
  (w : World) :
  exists (later : list call) (lines : list string),
    assignFieldPermissions connection fieldNames permissions w
    = ({| cwd := cwd w; calls := (calls w ++ later)%list |},
       Return (join newline lines))
    /\ Forall2 lineOf permissions lines
    /\ forall perm, In perm permissions ->
         In (MetadataUpdate "PermissionSet" (permissionItem fieldNames perm)) later.
Proof.
  destruct (assignLoop_outcome connection fieldNames permissions
              {| world := w; results := [] |})
    as [later [lines [Hrun [Hlines Hin]]]].
  exists later, lines. unfold assignFieldPermissions. rewrite Hrun.
  cbn. auto.
Qed.

(** The two fallbacks, in general: when the update as a PermissionSet
    raises, or returns an outcome with success = false, the same item is sent
    as a Profile right after it and one line is pushed, the line of a Profile
    answer.  It is the answer to that retry, except when the retry made
    after a declared failure yields no outcome: the item is then sent as a
    Profile once more and the answer to this last call is the one
    recorded. *)
Lemma profile_fallback_cases (connection : Connection)
  (fieldNames : list string) (perm : PermissionAssignment.t) (f : Frame) :
  let name := PermissionAssignment.permissionSetOrProfile perm in
  let item := permissionItem fieldNames perm in
  let past := calls (world f) in
  let afterSet := snoc past (MetadataUpdate "PermissionSet" item) in
  let afterProfile := snoc afterSet (MetadataUpdate "Profile" item) in
  permissionSetFailed (update connection past "PermissionSet" item) ->
  exists (logged : list call) (answer : result (oneOrMany SaveResult.t)),
    assignOne connection fieldNames perm f
    = ({| world := {| cwd := cwd (world f); calls := logged |};
          results := snoc (results f) (profileLine name answer) |}, Return tt)
    /\ ((logged = afterProfile
         /\ answer = update connection afterSet "Profile" item)
        \/ (logged = snoc afterProfile (MetadataUpdate "Profile" item)
            /\ answer = update connection afterProfile "Profile" item
            /\ hasOutcome (update connection afterSet "Profile" item) = false
            /\ exists declared,
                 update connection past "PermissionSet" item = Return declared)).
Proof.
  intros name item past afterSet afterProfile Hfail.
  rewrite assignOne_outcome. unfold grantOutcome.
  fold name item past afterSet afterProfile.
  destruct Hfail as [[e He] | [declared [outcome [Hret [Hfirst Hsucc]]]]].
  - rewrite He. cbn [fst snd]. eexists _, _. split; [reflexivity |].
    left. split; reflexivity.
  - rewrite Hret, Hfirst, Hsucc.
    destruct (hasOutcome (update connection afterSet "Profile" item)) eqn:Hout;
      cbn [fst snd]; eexists _, _; (split; [reflexivity |]).
    + left. split; reflexivity.
    + right. repeat split. now exists declared.
Qed.

(** The lines of the two fallbacks on sample remotes: a Profile that accepts,
    and a Profile that raises once after a declared failure and is then
    asked again. *)
Example profile_accepts_after_rejection :
  assignOne profileOnlyConnection ["Account.Foo__c"] sampleGrantee
    {| world := sampleWorld; results := [] |}
  = ({| world :=
          {| cwd := "/home";
             calls := [ MetadataUpdate "PermissionSet"
                          (permissionItem ["Account.Foo__c"] sampleGrantee);
                        MetadataUpdate "Profile"
                          (permissionItem ["Account.Foo__c"] sampleGrantee) ] |};
        results := [ "✓ Profile " ++ dq ++ "Sales" ++ dq ++ ": assigned" ] |},
     Return tt).
Proof. reflexivity. Qed.

Example profile_asked_twice_after_rejection :
  assignOne flakyProfileConnection ["Account.Foo__c"] sampleGrantee
    {| world := sampleWorld; results := [] |}
  = ({| world :=
          {| cwd := "/home";
             calls := [ MetadataUpdate "PermissionSet"
                          (permissionItem ["Account.Foo__c"] sampleGrantee);
                        MetadataUpdate "Profile"
                          (permissionItem ["Account.Foo__c"] sampleGrantee);
                        MetadataUpdate "Profile"
                          (permissionItem ["Account.Foo__c"] sampleGrantee) ] |};
        results := [ "✓ Profile " ++ dq ++ "Sales" ++ dq ++ ": assigned" ] |},
     Return tt).
Proof. reflexivity. Qed.

(** C1: the claim holds on the path of the raised exception and fails on
    the path of the declared failure.  On a remote that rejects the update
    as a PermissionSet with success = false and whose update as a Profile
    raises once, the retry raises, and yet the line recorded is not the
    failure line of that retry: the retry sits inside the inner [try], so
    its exception reaches the [catch] written for the PermissionSet call,
    the item is sent as a Profile a second time and the success of that
    second call is what is recorded.  On the sibling path, where the
    PermissionSet call itself raised, the same raising retry is made once
    and recorded as the grantee's failure. *)
Theorem C1_declared_failure_retry_repeated :
  permissionSetFailed
    (update flakyProfileConnection [] "PermissionSet"
       (permissionItem ["Account.Foo__c"] sampleGrantee))
  /\ update flakyProfileConnection
       [ MetadataUpdate "PermissionSet"
           (permissionItem ["Account.Foo__c"] sampleGrantee) ]
       "Profile" (permissionItem ["Account.Foo__c"] sampleGrantee)
     = Throw (Error "ECONNRESET")
  /\ assignOne flakyProfileConnection ["Account.Foo__c"] sampleGrantee
       {| world := sampleWorld; results := [] |}
     = ({| world :=
             {| cwd := "/home";
                calls := [ MetadataUpdate "PermissionSet"
                             (permissionItem ["Account.Foo__c"] sampleGrantee);
                           MetadataUpdate "Profile"
                             (permissionItem ["Account.Foo__c"] sampleGrantee);
                           MetadataUpdate "Profile"
                             (permissionItem ["Account.Foo__c"] sampleGrantee) ] |};
           results := [ "✓ Profile " ++ dq ++ "Sales" ++ dq ++ ": assigned" ] |},
        Return tt)
  /\ "✓ Profile " ++ dq ++ "Sales" ++ dq ++ ": assigned"
     <> profileLine "Sales" (Throw (Error "ECONNRESET"))
  /\ permissionSetFailed
       (update flakyProfileAfterRaiseConnection [] "PermissionSet"
          (permissionItem ["Account.Foo__c"] sampleGrantee))
  /\ assignOne flakyProfileAfterRaiseConnection ["Account.Foo__c"] sampleGrantee
       {| world := sampleWorld; results := [] |}
     = ({| world :=
             {| cwd := "/home";
                calls := [ MetadataUpdate "PermissionSet"
                             (permissionItem ["Account.Foo__c"] sampleGrantee);
                           MetadataUpdate "Profile"
                             (permissionItem ["Account.Foo__c"] sampleGrantee) ] |};
           results := [ profileLine "Sales" (Throw (Error "ECONNRESET")) ] |},
        Return tt).
Proof.
  split; [| split; [| split; [| split; [| split]]]].
  - right.
    exists (One (sampleOutcome false "Sales")), (sampleOutcome false "Sales").
    split; [reflexivity | split; reflexivity].
  - reflexivity.
  - reflexivity.
  - intros H. vm_compute in H. discriminate H.
  - left. exists (Error "INVALID_TYPE"). reflexivity.
  - reflexivity.
Qed.

(** C8: the engine always returns; its text is the join of exactly one line
    per grantee, the i-th line naming the i-th grantee; every grantee's
    update is attempted whatever happened to the grantees before it; and an
    exception that leaves a grantee's whole attempt, fallback included,
    becomes that grantee's failure line, made of the exception's message. *)
Theorem C8_one_line_per_grantee (connection : Connection)
  (fieldNames : list string) (permissions : list PermissionAssignment.t)
  (w : World) :
  (exists (later : list call) (lines : list string),
      assignFieldPermissions connection fieldNames permissions w
      = ({| cwd := cwd w; calls := (calls w ++ later)%list |},
         Return (join newline lines))
      /\ List.length lines = List.length permissions
      /\ Forall2 lineOf permissions lines
      /\ forall perm, In perm permissions ->
           In (MetadataUpdate "PermissionSet" (permissionItem fieldNames perm))
             later)
  /\ (forall (perm : PermissionAssignment.t) (f f' : Frame) (e : exn),
         assignAttempt connection fieldNames perm f = (f', Throw e) ->
         assignOne connection fieldNames perm f
         = ({| world := world f';
               results :=
                 snoc (results f)
                   ("✗ " ++ dq ++ PermissionAssignment.permissionSetOrProfile perm
                      ++ dq ++ ": " ++ exnMessage e) |},
            Return tt)).
Proof.
  split.
  - destruct (assignFieldPermissions_outcome connection fieldNames permissions w)
      as [later [lines [Hrun [Hlines Hin]]]].
    exists later, lines. repeat split; try assumption.
    symmetry. exact (Forall2_length Hlines).
  - intros perm f f' e Hthrow.
    pose proof (assignAttempt_throw_results _ _ _ _ _ _ Hthrow) as Hres.
    unfold assignOne, tryCatch. rewrite Hthrow. unfold push. now rewrite Hres.
Qed.

(** C8, witness: with a remote whose updates all raise, the grantee's line
    is the failure line with the message raised. *)
Lemma C8_one_line_per_grantee_witness :
  assignAttempt failingUpdateConnection ["Account.Foo__c"] sampleGrantee
    {| world := sampleWorld; results := [] |}
  = ({| world :=
          {| cwd := "/home";
             calls := [ MetadataUpdate "PermissionSet"
                          (permissionItem ["Account.Foo__c"] sampleGrantee);
                        MetadataUpdate "Profile"
                          (permissionItem ["Account.Foo__c"] sampleGrantee) ] |};
        results := [] |}, Throw (Error "INVALID_SESSION"))
  /\ assignOne failingUpdateConnection ["Account.Foo__c"] sampleGrantee
       {| world := sampleWorld; results := [] |}
     = ({| world :=
             {| cwd := "/home";
                calls := [ MetadataUpdate "PermissionSet"
                             (permissionItem ["Account.Foo__c"] sampleGrantee);
                           MetadataUpdate "Profile"
                             (permissionItem ["Account.Foo__c"] sampleGrantee) ] |};
           results := [ "✗ " ++ dq ++ "Sales" ++ dq ++ ": INVALID_SESSION" ] |},
        Return tt).
Proof.
  split; [reflexivity |].
  exact (proj2 (C8_one_line_per_grantee failingUpdateConnection
                  ["Account.Foo__c"] [sampleGrantee] sampleWorld)
           sampleGrantee {| world := sampleWorld; results := [] |} _ _
           eq_refl).
Defined.

(* ================================================================== *)
(** * The deployment orchestrator *)
(* ================================================================== *)

(** What the partition loop adds to the two arrays: the fullName of each
    successful outcome, in the order returned, and for each failed outcome a
    line that starts with its fullName. *)
Lemma partitionResults_spec (results : list SaveResult.t) :
  forall successFields failedFields successFields' failedFields',
    partitionResults results successFields failedFields
    = Return (successFields', failedFields') ->
    successFields'
    = (successFields
         ++ map SaveResult.fullName (filter SaveResult.success results))%list
    /\ exists lines,
         failedFields' = (failedFields ++ lines)%list
         /\ Forall2
              (fun outcome line =>
                 exists detail, line = SaveResult.fullName outcome ++ ": " ++ detail)
              (filter (fun r => negb (SaveResult.success r)) results) lines.
Proof.
  induction results as [| r rest IH]; intros s f s' f' H; cbn in H.
  - injection H as <- <-. rewrite !app_nil_r. split; [reflexivity |].
    exists []. rewrite app_nil_r. split; [reflexivity | constructor].
  - cbn [filter]. destruct (SaveResult.success r) eqn:Hs; cbn [negb].
    + apply IH in H. destruct H as [Hs' [lines [Hf' Hall]]].
      split; [| now exists lines].
      rewrite Hs'. unfold snoc. now rewrite <- app_assoc.
    + destruct (messagesOf (errorsArray (SaveResult.errors r))) as [ms | e];
        [| discriminate].
      apply IH in H. destruct H as [Hs' [lines [Hf' Hall]]].
      split; [exact Hs' |].
      exists ((SaveResult.fullName r ++ ": " ++ join ", " ms) :: lines).
      split.
      * rewrite Hf'. unfold snoc. now rewrite <- app_assoc.
      * constructor; [now eexists | exact Hall].
Qed.

(** An invocation that reaches the summary got an answer from the create
    call and went through the partition loop without an exception. *)
Lemma deploy_reaches_summary (connection : Connection)
  (fields : list FieldDefinition.t)
  (permissions : option (list PermissionAssignment.t)) (w w' : World)
  (r : CallToolResult) :
  deployFieldsAndPermissions connection fields permissions w = (w', Return r) ->
  exists answer successFields failedFields,
    create connection (calls w) "CustomField" (map metadataItem fields)
    = Return answer
    /\ partitionResults (toArray answer) [] [] = Return (successFields, failedFields).
Proof.
  unfold deployFieldsAndPermissions, bind, metadataCreate, remoteCall, liftResult.
  destruct (create connection (calls w) "CustomField" (map metadataItem fields))
    as [answer | e]; cbv beta iota zeta; [| intros H; discriminate H].
  destruct (partitionResults (toArray answer) [] []) as [[s f] | e] eqn:Hpart;
    cbv beta iota zeta; [| intros H; discriminate H].
  intros _. exists answer, s, f. split; [reflexivity | exact Hpart].
Qed.

(** With such an answer the invocation returns the summary of the two
    arrays, flagged by [failedFields.length > 0], whatever the updates do. *)
Lemma deploy_summary (connection : Connection)
  (fields : list FieldDefinition.t)
  (permissions : option (list PermissionAssignment.t)) (w : World)
  (answer : oneOrMany SaveResult.t) (successFields failedFields : list string) :
  create connection (calls w) "CustomField" (map metadataItem fields)
  = Return answer ->
  partitionResults (toArray answer) [] [] = Return (successFields, failedFields) ->
  exists (w' : World) (permissionResults : string),
    deployFieldsAndPermissions connection fields permissions w
    = (w', Return (textResponse
                     (buildResultSummary successFields failedFields permissionResults)
                     (0 <? List.length failedFields)%nat)).
Proof.
  intros Hcreate Hpart.
  unfold deployFieldsAndPermissions, bind, metadataCreate, remoteCall, liftResult.
  rewrite Hcreate, Hpart. cbv beta iota zeta. cbn [fst snd].
  destruct permissions as [[| p ps] |]; try (eexists _, ""; reflexivity).
  destruct (0 <? List.length successFields)%nat; [| eexists _, ""; reflexivity].
  match goal with
  | |- context [assignFieldPermissions ?c ?n ?ps ?w0] =>
      destruct (assignFieldPermissions_outcome c n ps w0)
        as [later [lines [Hrun _]]]
  end.
  rewrite Hrun. eexists _, _. reflexivity.
Qed.

Lemma length_positive_nonempty {A : Type} (l : list A) :
  (0 <? List.length l)%nat = true <-> l <> [].
Proof.
  destruct l; cbn; split; intros H; congruence.
Qed.

(** The failure array is non-empty exactly when some outcome is flagged
    unsuccessful. *)
Lemma failedFields_nonempty (results : list SaveResult.t)
  (successFields failedFields : list string) :
  partitionResults results [] [] = Return (successFields, failedFields) ->
  failedFields <> []
  <-> exists outcome, In outcome results /\ SaveResult.success outcome = false.
Proof.
  intros H. apply partitionResults_spec in H.
  destruct H as [_ [lines [Hf Hall]]]. cbn in Hf. subst failedFields.
  remember (filter (fun r => negb (SaveResult.success r)) results) as failed
    eqn:Hfailed.
  split.
  - intros Hne. destruct Hall as [| outcome line rest lines' _ _];
      [contradiction |].
    exists outcome.
    assert (Hin : In outcome (outcome :: rest)) by now left.
    rewrite Hfailed in Hin. apply filter_In in Hin.
    destruct Hin as [Hin Hneg]. split; [exact Hin |].
    now apply negb_true_iff in Hneg.
  - intros [outcome [Hin Hs]].
    assert (Hin' : In outcome failed).
    { rewrite Hfailed. apply filter_In. split; [exact Hin |].
      now rewrite Hs. }
    destruct Hall; [contradiction | discriminate].
Qed.

(** C2: an invocation that reaches the result summary returns a result
    whose error flag is set if and only if failedFields is non-empty, that
    is, if and only if some outcome of the create call is flagged
    unsuccessful; whatever the permission updates answer or raise, the
    invocation still returns and the flag is the same. *)
Theorem C2_error_flag_iff_failed (connection : Connection)
  (fields : list FieldDefinition.t)
  (permissions : option (list PermissionAssignment.t)) (w w' : World)
  (r : CallToolResult) :
  deployFieldsAndPermissions connection fields permissions w = (w', Return r) ->
  exists answer successFields failedFields,
    create connection (calls w) "CustomField" (map metadataItem fields)
    = Return answer
    /\ partitionResults (toArray answer) [] [] = Return (successFields, failedFields)
    /\ (isError r = true <-> failedFields <> [])
    /\ (isError r = true
        <-> exists outcome,
              In outcome (toArray answer) /\ SaveResult.success outcome = false)
    /\ forall update' : list call -> string -> obj -> result (oneOrMany SaveResult.t),
         exists w'' r',
           deployFieldsAndPermissions
             {| create := create connection; update := update' |}
             fields permissions w
           = (w'', Return r')
           /\ isError r' = isError r.
Proof.
  intros Hrun.
  destruct (deploy_reaches_summary _ _ _ _ _ _ Hrun)
    as [answer [successFields [failedFields [Hcreate Hpart]]]].
  exists answer, successFields, failedFields.
  destruct (deploy_summary connection fields permissions w answer
              successFields failedFields Hcreate Hpart)
    as [w1 [text1 Hsum]].
  rewrite Hsum in Hrun. injection Hrun as _ Hr. subst r. cbn [isError textResponse].
  assert (Hflag : (0 <? List.length failedFields)%nat = true <-> failedFields <> [])
    by apply length_positive_nonempty.
  split; [exact Hcreate | split; [exact Hpart | split; [exact Hflag | split]]].
  - rewrite Hflag. now apply (failedFields_nonempty _ successFields).
  - intros update'.
    destruct (deploy_summary {| create := create connection; update := update' |}
                fields permissions w answer successFields failedFields
                Hcreate Hpart)
      as [w2 [text2 Hsum2]].
    eexists _, _. split; [exact Hsum2 | reflexivity].
Qed.

(** C2, witness: two fields created, one rejected, every permission update
    raising: the flag is set, and it is set by the rejected field. *)
Lemma C2_error_flag_iff_failed_witness :
  exists w' r,
    deployFieldsAndPermissions mixedConnection threeFields
      (Some [ sampleGrantee ]) sampleWorld
    = (w', Return r)
    /\ isError r = true
    /\ exists answer successFields failedFields,
         create mixedConnection (calls sampleWorld) "CustomField"
           (map metadataItem threeFields)
         = Return answer
         /\ partitionResults (toArray answer) [] []
            = Return (successFields, failedFields)
         /\ (isError r = true <-> failedFields <> [])
         /\ (isError r = true
             <-> exists outcome,
                   In outcome (toArray answer)
                   /\ SaveResult.success outcome = false)
         /\ forall update' : list call -> string -> obj
                             -> result (oneOrMany SaveResult.t),
              exists w'' r',
                deployFieldsAndPermissions
                  {| create := create mixedConnection; update := update' |}
                  threeFields (Some [ sampleGrantee ]) sampleWorld
                = (w'', Return r')
                /\ isError r' = isError r.
Proof.
  pose (run := deployFieldsAndPermissions mixedConnection threeFields
                 (Some [ sampleGrantee ]) sampleWorld).
  exists (fst run),
    (match snd run with
     | Return r => r
     | Throw _ => textResponse "" false
     end).
  split; [reflexivity |]. split; [reflexivity |].
  apply (C2_error_flag_iff_failed mixedConnection threeFields
           (Some [ sampleGrantee ]) sampleWorld (fst run)).
  reflexivity.
Defined.

(** Permission failures alone: every field created, every update raising;
    the report carries the failure line and the flag stays clear. *)
Example permission_failure_keeps_flag_clear :
  snd (deployFieldsAndPermissions failingUpdateConnection
         [ sampleField "Account" "Foo" Text ] (Some [ sampleGrantee ]) sampleWorld)
  = Return
      {| text :=
           "Successfully created 1 field(s):" ++ newline
           ++ "  ✓ Account.Foo__c" ++ newline
           ++ newline ++ "Permission assignments:" ++ newline
           ++ "✗ " ++ dq ++ "Sales" ++ dq ++ ": INVALID_SESSION";
         isError := false |}.
Proof. reflexivity. Qed.

(** Two created, one rejected: a success block of two, a failure block of
    one, and the flag set. *)
Example two_created_one_rejected :
  snd (deployFieldsAndPermissions mixedConnection threeFields None sampleWorld)
  = Return
      {| text :=
           "Successfully created 2 field(s):" ++ newline
           ++ "  ✓ Account.Baz__c" ++ newline
           ++ "  ✓ Account.Foo__c" ++ newline
           ++ newline ++ "Failed to create 1 field(s):" ++ newline
           ++ "  ✗ Account.Bar__c: rejected";
         isError := true |}.
Proof. reflexivity. Qed.






(** A single outcome for a batch of one field is worked on as a sequence
    of one. *)
Example single_outcome_for_one_field :
  onePerField [ sampleField "Account" "Foo" Text ]
    (One (sampleOutcome true "Account.Foo__c"))
  /\ snd (deployFieldsAndPermissions singleAnswerConnection
            [ sampleField "Account" "Foo" Text ] None sampleWorld)
     = Return {| text := "Successfully created 1 field(s):" ++ newline
                         ++ "  ✓ Account.Foo__c";
                 isError := false |}.
Proof.
  split; [apply Permutation_refl | reflexivity].
Qed.

(* ================================================================== *)
(** * The operation *)
(* ================================================================== *)

(** Without an identifier [exec] returns at its first statement. *)
Lemma exec_missing_identifier (process : Process) (services : Services)
  (input : InputArgs.t) (w : World) :
  identifierMissing input ->
  exec process services input w
  = (w, Return (textResponse
                  "The usernameOrAlias parameter is required. Use the #get_username tool if not specified."
                  true)).
Proof.
  unfold exec. intros [H | H]; rewrite H; reflexivity.
Qed.

(** No remote call changes the working directory. *)
Lemma deploy_cwd (connection : Connection) (fields : list FieldDefinition.t)
  (permissions : option (list PermissionAssignment.t)) (w : World) :
  cwd (fst (deployFieldsAndPermissions connection fields permissions w)) = cwd w.
Proof.
  unfold deployFieldsAndPermissions, bind, metadataCreate, remoteCall, liftResult.
  destruct (create connection (calls w) "CustomField" (map metadataItem fields))
    as [answer | e]; cbv beta iota zeta; [| reflexivity].
  destruct (partitionResults (toArray answer) [] []) as [[s f] | e];
    cbv beta iota zeta; [| reflexivity].
  cbn [fst snd].
  destruct permissions as [[| p ps] |]; try reflexivity.
  destruct (0 <? List.length s)%nat; [| reflexivity].
  match goal with
  | |- context [assignFieldPermissions ?c ?n ?ps ?w0] =>
      destruct (assignFieldPermissions_outcome c n ps w0)
        as [later [lines [Hrun _]]]
  end.
  rewrite Hrun. reflexivity.
Qed.

(** C9: when the usernameOrAlias identifier is absent (or empty, which the
    same test rejects), the operation returns the fixed instructional message
    with the error flag set, and the log of remote calls is what it was: no
    connection is resolved, nothing is created, no permission is updated. *)
Theorem C9_missing_identifier_rejected (process : Process) (services : Services)
  (input : InputArgs.t) (w : World) :
  identifierMissing input ->
  snd (exec process services input w)
  = Return
      {| text := "The usernameOrAlias parameter is required. Use the #get_username tool if not specified.";
         isError := true |}
  /\ calls (fst (exec process services input w)) = calls w.
Proof.
  intros H. rewrite (exec_missing_identifier process services input w H).
  split; reflexivity.
Qed.

(** C9, witness: the sample input without identifier. *)
Lemma C9_missing_identifier_rejected_witness :
  identifierMissing (sampleInput None)
  /\ snd (exec sampleProcess (sampleServices profileOnlyConnection)
            (sampleInput None) sampleWorld)
     = Return
         {| text := "The usernameOrAlias parameter is required. Use the #get_username tool if not specified.";
            isError := true |}
  /\ calls (fst (exec sampleProcess (sampleServices profileOnlyConnection)
                   (sampleInput None) sampleWorld))
     = [].
Proof.
  assert (H : identifierMissing (sampleInput None)) by (left; reflexivity).
  split; [exact H |].
  exact (C9_missing_identifier_rejected sampleProcess
           (sampleServices profileOnlyConnection) (sampleInput None)
           sampleWorld H).
Defined.

(** C10: when the usernameOrAlias identifier is absent the working directory
    is left as it was; with an identifier, the working directory after the
    operation is the one [process.chdir(input.directory)] moved to, so the
    change is made only on the path past the identifier check. *)
Theorem C10_rejection_keeps_cwd (process : Process) (services : Services)
  (input : InputArgs.t) (w : World) :
  (identifierMissing input ->
   cwd (fst (exec process services input w)) = cwd w)
  /\ (forall directory : string,
         ~ identifierMissing input ->
         chdir process (cwd w) (InputArgs.directory input) = Return directory ->
         cwd (fst (exec process services input w)) = directory).
Proof.
  split.
  - intros H. now rewrite (exec_missing_identifier process services input w H).
  - intros directory Hpresent Hchdir. unfold exec.
    destruct (InputArgs.usernameOrAlias input) as [[| c u] |] eqn:Hid.
    + exfalso. apply Hpresent. now right.
    + unfold bind, processChdir. rewrite Hchdir. cbv beta iota zeta.
      unfold tryCatch, bind, resolveConnection, remoteCall. cbn [calls cwd].
      destruct (getConnection services (calls w) (String c u))
        as [connection | e]; cbv beta iota zeta; [| reflexivity].
      match goal with
      | |- context [deployFieldsAndPermissions ?c ?fs ?ps ?w0] =>
          pose proof (deploy_cwd c fs ps w0) as Hcwd;
          destruct (deployFieldsAndPermissions c fs ps w0) as [w1 [r | e]]
      end; exact Hcwd.
    + exfalso. apply Hpresent. now left.
Qed.

(** C10, witness: without identifier the directory stays "/home"; with one
    it becomes "/project". *)
Lemma C10_rejection_keeps_cwd_witness :
  cwd (fst (exec sampleProcess (sampleServices profileOnlyConnection)
              (sampleInput None) sampleWorld))
  = "/home"
  /\ cwd (fst (exec sampleProcess (sampleServices profileOnlyConnection)
                 (sampleInput (Some "admin@example.com")) sampleWorld))
     = "/project".
Proof.
  split.
  - apply (proj1 (C10_rejection_keeps_cwd sampleProcess
                    (sampleServices profileOnlyConnection) (sampleInput None)
                    sampleWorld)).
    left. reflexivity.
  - apply (proj2 (C10_rejection_keeps_cwd sampleProcess
                    (sampleServices profileOnlyConnection)
                    (sampleInput (Some "admin@example.com")) sampleWorld)).
    + intros [H | H]; discriminate H.
    + reflexivity.
Defined.

(* ================================================================== *)
(** * Further properties of the field metadata builder *)
(* ================================================================== *)

Lemma append_assoc (a b c : string) : (a ++ b) ++ c = a ++ b ++ c.
Proof.
  induction a as [| x a IH]; simpl; [reflexivity | now rewrite IH].
Qed.

(** Reading a payload attribute through the builder's last statement. *)
Ltac payload_lookup Htype :=
  rewrite buildFieldMetadata_lookup; unfold rawMetadata, typeSpecific;
  rewrite Htype;
  repeat match goal with
         | |- context [match ?o with Some _ => _ | None => _ end] =>
             is_var o; destruct o
         end;
  reflexivity.

(** X1: the payload of the builder has exactly the attributes of its field
    type, in a fixed order: label and type, description and inlineHelpText
    when given, required, unique and externalId, then the attributes of the
    type's branch (none for Checkbox, Date, DateTime, Email, Phone, Url). *)
Theorem X1_payload_keys (field : FieldDefinition.t) :
  keys (buildFieldMetadata field) = payloadKeys field.
Proof.
  destruct field as [o n l t d h r u e len p sc v pv ref rn rl dc].
  destruct t, d, h, pv as [[| pv0 pvs] |], ref; reflexivity.
Qed.

Lemma buildFieldMetadata_consultedOnly (field : FieldDefinition.t) :
  buildFieldMetadata (consultedOnly field) = buildFieldMetadata field.
Proof.
  destruct field as [o n l t d h r u e len p sc v pv ref rn rl dc].
  destruct t; reflexivity.
Qed.

(** X2: two field definitions that differ only in options their type does
    not read (a length on a Checkbox, picklistValues on a Text, a
    deleteConstraint on a MasterDetail, ...) give the same payload and the
    same submitted item. *)
Theorem X2_unread_options_ignored (field1 field2 : FieldDefinition.t) :
  consultedOnly field1 = consultedOnly field2 ->
  buildFieldMetadata field1 = buildFieldMetadata field2
  /\ metadataItem field1 = metadataItem field2.
Proof.
  intros H.
  assert (Hpayload : buildFieldMetadata field1 = buildFieldMetadata field2).
  { rewrite <- (buildFieldMetadata_consultedOnly field1),
      <- (buildFieldMetadata_consultedOnly field2).
    now rewrite H. }
  split; [exact Hpayload |].
  unfold metadataItem, fullFieldName. rewrite Hpayload.
  assert (Ho : FieldDefinition.objectApiName field1
               = FieldDefinition.objectApiName field2)
    by exact (f_equal FieldDefinition.objectApiName H).
  assert (Hn : FieldDefinition.fieldApiName field1
               = FieldDefinition.fieldApiName field2)
    by exact (f_equal FieldDefinition.fieldApiName H).
  now rewrite Ho, Hn.
Qed.

(** X2, witness: a Checkbox with and without a stray length. *)
Lemma X2_unread_options_ignored_witness :
  buildFieldMetadata
    {| FieldDefinition.objectApiName := "Account";
       FieldDefinition.fieldApiName := "Active";
       FieldDefinition.label := "Active";
       FieldDefinition.type := Checkbox;
       FieldDefinition.description := None;
       FieldDefinition.helpText := None;
       FieldDefinition.required := None;
       FieldDefinition.unique := None;
       FieldDefinition.externalId := None;
       FieldDefinition.length := Some 40%Q;
       FieldDefinition.precision := None;
       FieldDefinition.scale := None;
       FieldDefinition.visibleLines := None;
       FieldDefinition.picklistValues := Some [ PicklistValue.mk "A" None ];
       FieldDefinition.referenceTo := None;
       FieldDefinition.relationshipName := None;
       FieldDefinition.relationshipLabel := None;
       FieldDefinition.deleteConstraint := Some Cascade |}
  = buildFieldMetadata
      {| FieldDefinition.objectApiName := "Account";
         FieldDefinition.fieldApiName := "Active";
         FieldDefinition.label := "Active";
         FieldDefinition.type := Checkbox;
         FieldDefinition.description := None;
         FieldDefinition.helpText := None;
         FieldDefinition.required := None;
         FieldDefinition.unique := None;
         FieldDefinition.externalId := None;
         FieldDefinition.length := None;
         FieldDefinition.precision := None;
         FieldDefinition.scale := None;
         FieldDefinition.visibleLines := None;
         FieldDefinition.picklistValues := None;
         FieldDefinition.referenceTo := None;
         FieldDefinition.relationshipName := None;
         FieldDefinition.relationshipLabel := None;
         FieldDefinition.deleteConstraint := None |}.
Proof.
  apply X2_unread_options_ignored. reflexivity.
Defined.

(** X3: every payload carries label, the remote type name ("Html" for
    RichTextArea, the logical name otherwise) and the three flags required,
    unique and externalId, each false unless given; description and
    inlineHelpText are the given texts, or are not there. *)
Theorem X3_base_attributes (field : FieldDefinition.t) :
  let payload := buildFieldMetadata field in
  getOwn "label" payload = Some (VStr (FieldDefinition.label field))
  /\ getOwn "type" payload
     = Some (VStr (remoteTypeName (FieldDefinition.type field)))
  /\ getOwn "required" payload
     = Some (VBool (match FieldDefinition.required field with
                    | Some b => b
                    | None => false
                    end))
  /\ getOwn "unique" payload
     = Some (VBool (match FieldDefinition.unique field with
                    | Some b => b
                    | None => false
                    end))
  /\ getOwn "externalId" payload
     = Some (VBool (match FieldDefinition.externalId field with
                    | Some b => b
                    | None => false
                    end))
  /\ getOwn "description" payload
     = option_map VStr (FieldDefinition.description field)
  /\ getOwn "inlineHelpText" payload
     = option_map VStr (FieldDefinition.helpText field).
Proof.
  destruct field as [o n l t d h r u e len p sc v pv ref rn rl dc].
  cbv zeta. rewrite !buildFieldMetadata_lookup.
  destruct t, pv as [[| pv0 pvs] |], d, h; repeat split; reflexivity.
Qed.

(** X4: the numeric attributes and their defaults: length 255 for Text and
    TextArea; precision 18 and scale 2 for Number, Currency and Percent;
    length 32768 and visibleLines 6 for LongTextArea and RichTextArea;
    visibleLines 4 for MultiselectPicklist; a given number is passed on
    unchanged, 0 included. *)
Theorem X4_numeric_defaults (field : FieldDefinition.t) :
  let payload := buildFieldMetadata field in
  let given (o : option Q) (d : Q) :=
    match o with
    | Some q => q
    | None => d
    end in
  let t := FieldDefinition.type field in
  (t = Text \/ t = TextArea ->
   getOwn "length" payload
   = Some (VNum (given (FieldDefinition.length field) 255%Q)))
  /\ (t = Number \/ t = Currency \/ t = Percent ->
      getOwn "precision" payload
      = Some (VNum (given (FieldDefinition.precision field) 18%Q))
      /\ getOwn "scale" payload
         = Some (VNum (given (FieldDefinition.scale field) 2%Q)))
  /\ (t = LongTextArea \/ t = RichTextArea ->
      getOwn "length" payload
      = Some (VNum (given (FieldDefinition.length field) 32768%Q))
      /\ getOwn "visibleLines" payload
         = Some (VNum (given (FieldDefinition.visibleLines field) 6%Q)))
  /\ (t = MultiselectPicklist ->
      getOwn "visibleLines" payload
      = Some (VNum (given (FieldDefinition.visibleLines field) 4%Q))).
Proof.
  destruct field as [o n l t d h r u e len p sc v pv ref rn rl dc].
  cbv zeta. cbn [FieldDefinition.type FieldDefinition.length
                   FieldDefinition.precision FieldDefinition.scale
                   FieldDefinition.visibleLines].
  rewrite !buildFieldMetadata_lookup.
  split; [| split; [| split]]; intros Ht;
    repeat match goal with
           | H : _ \/ _ |- _ => destruct H
           end;
    subst t; try destruct pv as [[| pv0 pvs] |];
    try split; reflexivity.
Qed.

(** X4, witness: a Text field without length gets 255. *)
Lemma X4_numeric_defaults_witness :
  getOwn "length" (buildFieldMetadata (sampleField "Account" "Foo" Text))
  = Some (VNum 255%Q).
Proof.
  apply (proj1 (X4_numeric_defaults (sampleField "Account" "Foo" Text))).
  left. reflexivity.
Defined.

(** X5: for Lookup and MasterDetail the payload has relationshipName, the
    given one or the field's API name as given followed by "s", and
    relationshipLabel, the given one or the label followed by "s";
    referenceTo is the given object or is not there; a Lookup also has
    deleteConstraint, "SetNull" unless given, and a MasterDetail never has
    one. *)
Theorem X5_relationship_attributes (field : FieldDefinition.t) :
  let payload := buildFieldMetadata field in
  let t := FieldDefinition.type field in
  (t = Lookup \/ t = MasterDetail ->
   getOwn "relationshipName" payload
   = Some (VStr (match FieldDefinition.relationshipName field with
                 | Some name => name
                 | None => FieldDefinition.fieldApiName field ++ "s"
                 end))
   /\ getOwn "relationshipLabel" payload
      = Some (VStr (match FieldDefinition.relationshipLabel field with
                    | Some label => label
                    | None => FieldDefinition.label field ++ "s"
                    end))
   /\ getOwn "referenceTo" payload
      = option_map VStr (FieldDefinition.referenceTo field))
  /\ (t = Lookup ->
      getOwn "deleteConstraint" payload
      = Some (VStr (match FieldDefinition.deleteConstraint field with
                    | Some c => deleteConstraintName c
                    | None => "SetNull"
                    end)))
  /\ (t = MasterDetail -> ~ In "deleteConstraint" (keys payload)).
Proof.
  destruct field as [o n l t d h r u e len p sc v pv ref rn rl dc].
  cbv zeta. cbn [FieldDefinition.type FieldDefinition.relationshipName
                   FieldDefinition.relationshipLabel FieldDefinition.referenceTo
                   FieldDefinition.deleteConstraint FieldDefinition.fieldApiName
                   FieldDefinition.label].
  split; [| split].
  - intros [Ht | Ht]; subst t; rewrite !buildFieldMetadata_lookup;
      destruct ref, rn, rl; repeat split; reflexivity.
  - intros Ht; subst t. rewrite buildFieldMetadata_lookup.
    destruct dc; reflexivity.
  - intros Ht; subst t. apply getOwn_none_notin.
    rewrite buildFieldMetadata_lookup. reflexivity.
Qed.

(** X5, witness: a Lookup "Owner" labelled "Owner" to Account. *)
Lemma X5_relationship_attributes_witness :
  getOwn "relationshipName" (buildFieldMetadata sampleLookup)
  = Some (VStr "Owners")
  /\ getOwn "relationshipLabel" (buildFieldMetadata sampleLookup)
     = Some (VStr "Owners")
  /\ getOwn "referenceTo" (buildFieldMetadata sampleLookup)
     = Some (VStr "Account")
  /\ getOwn "deleteConstraint" (buildFieldMetadata sampleLookup)
     = Some (VStr "SetNull").
Proof.
  destruct (X5_relationship_attributes sampleLookup) as [Hrel [Hdel _]].
  destruct (Hrel (or_introl eq_refl)) as [Hname [Hlabel Href]].
  split; [exact Hname | split; [exact Hlabel | split; [exact Href |]]].
  exact (Hdel eq_refl).
Defined.

(** X6: a Picklist or MultiselectPicklist whose picklistValues is absent or
    empty has no valueSet attribute at all, and a Picklist never has
    visibleLines, given or not. *)
Theorem X6_picklist_without_values (field : FieldDefinition.t) :
  let payload := buildFieldMetadata field in
  let t := FieldDefinition.type field in
  (t = Picklist \/ t = MultiselectPicklist ->
   FieldDefinition.picklistValues field = None
   \/ FieldDefinition.picklistValues field = Some [] ->
   ~ In "valueSet" (keys payload))
  /\ (t = Picklist -> ~ In "visibleLines" (keys payload)).
Proof.
  destruct field as [o n l t d h r u e len p sc v pv ref rn rl dc].
  cbv zeta. cbn [FieldDefinition.type FieldDefinition.picklistValues].
  split.
  - intros Ht Hpv. apply getOwn_none_notin. rewrite buildFieldMetadata_lookup.
    destruct Ht; subst t; destruct Hpv; subst pv; reflexivity.
  - intros Ht; subst t. apply getOwn_none_notin.
    rewrite buildFieldMetadata_lookup. destruct pv as [[| pv0 pvs] |]; reflexivity.
Qed.

(** X6, witness: a Picklist given an empty list of values. *)
Lemma X6_picklist_without_values_witness :
  ~ In "valueSet"
      (keys (buildFieldMetadata
               {| FieldDefinition.objectApiName := "Case";
                  FieldDefinition.fieldApiName := "Stage";
                  FieldDefinition.label := "Stage";
                  FieldDefinition.type := Picklist;
                  FieldDefinition.description := None;
                  FieldDefinition.helpText := None;
                  FieldDefinition.required := None;
                  FieldDefinition.unique := None;
                  FieldDefinition.externalId := None;
                  FieldDefinition.length := None;
                  FieldDefinition.precision := None;
                  FieldDefinition.scale := None;
                  FieldDefinition.visibleLines := Some 5%Q;
                  FieldDefinition.picklistValues := Some [];
                  FieldDefinition.referenceTo := None;
                  FieldDefinition.relationshipName := None;
                  FieldDefinition.relationshipLabel := None;
                  FieldDefinition.deleteConstraint := None |})).
Proof.
  apply X6_picklist_without_values.
  - left. reflexivity.
  - right. reflexivity.
Defined.

(** X7: the item submitted for a field is the payload with two changes: its
    [type] attribute moves to the front, where the spread overwrote the
    literal 'CustomField' with the remote type name of the field, and
    [fullName] comes second; every other payload attribute follows in
    payload order with its value. *)
Theorem X7_item_is_payload_with_fullName (field : FieldDefinition.t) :
  metadataItem field
  = ("type", VStr (remoteTypeName (FieldDefinition.type field)))
      :: ("fullName",
           VStr (FieldDefinition.objectApiName field ++ "." ++ fullFieldName field))
      :: filter (fun kv => negb (String.eqb (fst kv) "type"))
           (buildFieldMetadata field).
Proof.
  destruct field as [o n l t d h r u e len p sc v pv ref rn rl dc].
  destruct t, d, h, pv as [[| pv0 pvs] |], ref; reflexivity.
Qed.

Lemma fullFieldName_suffixed (field : FieldDefinition.t) :
  endsWith (fullFieldName field) "__c" = true.
Proof.
  unfold fullFieldName.
  destruct (endsWith (FieldDefinition.fieldApiName field) "__c") eqn:E;
    [exact E |].
  apply endsWith_spec. now exists (FieldDefinition.fieldApiName field).
Qed.

(** X8: the fullName submitted always ends in "__c", and suffixing is
    idempotent: a field whose API name is the suffixed name of another field
    on the same object is submitted under the same fullName. *)
Theorem X8_fullName_always_suffixed (field : FieldDefinition.t) :
  (exists stem,
      getOwn "fullName" (metadataItem field)
      = Some (VStr (FieldDefinition.objectApiName field ++ "." ++ stem ++ "__c")))
  /\ forall field' : FieldDefinition.t,
       FieldDefinition.objectApiName field' = FieldDefinition.objectApiName field ->
       FieldDefinition.fieldApiName field' = fullFieldName field ->
       getOwn "fullName" (metadataItem field')
       = getOwn "fullName" (metadataItem field).
Proof.
  split.
  - destruct (proj1 (endsWith_spec _ _) (fullFieldName_suffixed field))
      as [stem Hstem].
    exists stem. now rewrite metadataItem_fullName, Hstem.
  - intros field' Ho Hn. rewrite !metadataItem_fullName, Ho.
    unfold fullFieldName at 1. rewrite Hn, fullFieldName_suffixed. reflexivity.
Qed.

(** X8, witness: "Foo__c" resubmitted is still "Account.Foo__c". *)
Lemma X8_fullName_always_suffixed_witness :
  getOwn "fullName" (metadataItem (sampleField "Account" "Foo__c" Text))
  = getOwn "fullName" (metadataItem (sampleField "Account" "Foo" Text)).
Proof.
  apply (proj2 (X8_fullName_always_suffixed (sampleField "Account" "Foo" Text))
           (sampleField "Account" "Foo__c" Text));
    reflexivity.
Defined.

(** X9: the type table is one-to-one on the 17 logical names: two different
    logical types never map to the same remote type name. *)
Theorem X9_mapFieldType_injective (t1 t2 : FieldType) :
  mapFieldType (fieldTypeName t1) = mapFieldType (fieldTypeName t2) -> t1 = t2.
Proof.
  destruct t1, t2; intros H; try reflexivity; vm_compute in H; discriminate H.
Qed.

(** X9, witness: the hypothesis holds of a type and itself. *)
Lemma X9_mapFieldType_injective_witness : Text = Text.
Proof.
  exact (X9_mapFieldType_injective Text Text eq_refl).
Defined.

(* ================================================================== *)
(** * Further properties of the partition loop and of the summary *)
(* ================================================================== *)

Lemma messagesOf_present (errors : oneOrMany SaveError.t) :
  messagesOf (errorsArray (Some errors))
  = Return (map SaveError.message (toArray errors)).
Proof.
  destruct errors as [e | l]; [reflexivity |].
  cbn [errorsArray toArray].
  induction l as [| e l IH]; [reflexivity |].
  cbn [map messagesOf]. now rewrite IH.
Qed.

Lemma partitionResults_explained (results : list SaveResult.t) :
  forall successFields failedFields,
    explained results = true ->
    partitionResults results successFields failedFields
    = Return
        ((successFields
            ++ map SaveResult.fullName (filter SaveResult.success results))%list,
         (failedFields ++ map failureLine (filter failed results))%list).
Proof.
  unfold explained, failed.
  induction results as [| r rest IH]; intros s f H; cbn [partitionResults filter map].
  - now rewrite !app_nil_r.
  - cbn [forallb] in H. apply andb_true_iff in H. destruct H as [Hr Hrest].
    destruct (SaveResult.success r) eqn:Hs; cbn [negb].
    + rewrite (IH _ _ Hrest). unfold snoc. cbn [map].
      now rewrite <- app_assoc.
    + cbn [orb] in Hr. unfold hasErrors in Hr.
      assert (Hline : forall errors,
                 SaveResult.errors r = Some errors ->
                 failureLine r
                 = SaveResult.fullName r ++ ": "
                   ++ join ", " (map SaveError.message (toArray errors))).
      { intros errors He. unfold failureLine. now rewrite He. }
      destruct (SaveResult.errors r) as [errors |]; [| discriminate].
      rewrite messagesOf_present, (IH _ _ Hrest).
      unfold snoc. cbn [map]. rewrite (Hline errors eq_refl).
      now rewrite <- app_assoc.
Qed.

Lemma partitionResults_unexplained (results : list SaveResult.t) :
  forall successFields failedFields,
    explained results = false ->
    partitionResults results successFields failedFields
    = Throw (readOfUndefined "message").
Proof.
  unfold explained.
  induction results as [| r rest IH]; intros s f H; cbn [forallb] in H;
    [discriminate |].
  cbn [partitionResults].
  destruct (SaveResult.success r) eqn:Hs; cbn [orb] in H.
  - now apply IH.
  - unfold hasErrors in H.
    destruct (SaveResult.errors r) as [errors |] eqn:He; cbn [andb] in H.
    + rewrite messagesOf_present. now apply IH.
    + reflexivity.
Qed.

(** X10: the partition loop completes exactly when every outcome flagged
    unsuccessful carries an errors value.  It then yields the fullNames of
    the successful outcomes and, for each failed outcome, the line
    "fullName: " followed by its messages joined by ", ", both in the order
    returned.  Otherwise it raises the TypeError of reading message of
    undefined, whatever the other outcomes are. *)
Theorem X10_partition_outcome (results : list SaveResult.t) :
  (explained results = true ->
   partitionResults results [] []
   = Return (map SaveResult.fullName (filter SaveResult.success results),
             map failureLine (filter failed results)))
  /\ (explained results = false ->
      partitionResults results [] [] = Throw (readOfUndefined "message")).
Proof.
  split; intros H.
  - now rewrite (partitionResults_explained results [] [] H).
  - now apply partitionResults_unexplained.
Qed.

(** X10, witness: two created and one rejected with a reason; and a
    rejection without a reason. *)
Lemma X10_partition_outcome_witness :
  partitionResults
    [ sampleOutcome true "Account.Baz__c"; sampleOutcome false "Account.Bar__c";
      sampleOutcome true "Account.Foo__c" ] [] []
  = Return ([ "Account.Baz__c"; "Account.Foo__c" ], [ "Account.Bar__c: rejected" ])
  /\ partitionResults
       [ sampleOutcome true "Account.Foo__c";
         {| SaveResult.success := false;
            SaveResult.fullName := "Account.Bar__c";
            SaveResult.errors := None |} ] [] []
     = Throw (TypeError "Cannot read properties of undefined (reading 'message')").
Proof.
  split.
  - exact (proj1 (X10_partition_outcome
                    [ sampleOutcome true "Account.Baz__c";
                      sampleOutcome false "Account.Bar__c";
                      sampleOutcome true "Account.Foo__c" ]) eq_refl).
  - exact (proj2 (X10_partition_outcome
                    [ sampleOutcome true "Account.Foo__c";
                      {| SaveResult.success := false;
                         SaveResult.fullName := "Account.Bar__c";
                         SaveResult.errors := None |} ]) eq_refl).
Defined.

(** X11: the summary is the empty text exactly when there is nothing to
    report: no created field, no failed field and no permission text. *)
Theorem X11_summary_empty_iff (successFields failedFields : list string)
  (permissionResults : string) :
  buildResultSummary successFields failedFields permissionResults = ""
  <-> successFields = [] /\ failedFields = [] /\ permissionResults = "".
Proof.
  split.
  - intros H.
    destruct successFields as [| s ss]; [| cbn in H; destruct failedFields, permissionResults; discriminate H].
    destruct failedFields as [| f fs]; [| cbn in H; destruct permissionResults; discriminate H].
    destruct permissionResults as [| c p]; [auto | cbn in H; discriminate H].
  - intros [-> [-> ->]]. reflexivity.
Qed.

(* ================================================================== *)
(** * Further properties of the permission assignment engine *)
(* ================================================================== *)

Lemma isGrantCall_more (fieldNames : list string)
  (perms perms' : list PermissionAssignment.t) (c : call) :
  incl perms perms' ->
  isGrantCall fieldNames perms c -> isGrantCall fieldNames perms' c.
Proof.
  intros Hincl [perm [kind [Hin [Hkind Hc]]]].
  exists perm, kind. repeat split; auto.
Qed.

(** One grantee costs one to three updates, all of them for that grantee. *)
Lemma grantOutcome_shape (connection : Connection) (fieldNames : list string)
  (perm : PermissionAssignment.t) (past : list call) :
  exists extras,
    fst (grantOutcome connection fieldNames perm past) = (past ++ extras)%list
    /\ 1 <= List.length extras <= 3
    /\ Forall (isGrantCall fieldNames [perm]) extras.
Proof.
  assert (HA : isGrantCall fieldNames [perm]
                 (MetadataUpdate "PermissionSet" (permissionItem fieldNames perm))).
  { exists perm, "PermissionSet". repeat split; [now left | now left]. }
  assert (HB : isGrantCall fieldNames [perm]
                 (MetadataUpdate "Profile" (permissionItem fieldNames perm))).
  { exists perm, "Profile". repeat split; [now left | now right]. }
  unfold grantOutcome, snoc.
  destruct (update connection past "PermissionSet" _) as [answer | e];
    [destruct (firstOf answer) as [outcome |];
     [destruct (SaveResult.success outcome); [| destruct (hasOutcome _)] |] |];
    cbn [fst]; repeat rewrite <- app_assoc; cbn [app];
    eexists; (split; [reflexivity |]); cbn [List.length];
    (split; [lia | repeat constructor; assumption]).
Qed.

Lemma assignLoop_calls (connection : Connection) (fieldNames : list string)
  (permissions : list PermissionAssignment.t) :
  forall f : Frame,
  exists later,
    calls (world (fst (assignLoop connection fieldNames permissions f)))
    = (calls (world f) ++ later)%list
    /\ List.length permissions <= List.length later <= 3 * List.length permissions
    /\ Forall (isGrantCall fieldNames permissions) later.
Proof.
  unfold assignLoop.
  induction permissions as [| perm rest IH]; intros f.
  - exists []. cbn. rewrite app_nil_r. repeat split; auto.
  - cbn [forEach]. unfold bind at 1. rewrite assignOne_outcome.
    destruct (grantOutcome_shape connection fieldNames perm (calls (world f)))
      as [extras [Hcalls [Hlen Hall]]].
    rewrite Hcalls.
    match goal with
    | |- context [forEach rest _ ?f1] => destruct (IH f1) as [later [Hrun [Hlen2 Hall2]]]
    end.
    cbn [world calls] in Hrun.
    exists (extras ++ later)%list. split; [| split].
    + rewrite Hrun. now rewrite <- app_assoc.
    + rewrite length_app. cbn [List.length]. lia.
    + apply Forall_app. split.
      * eapply Forall_impl; [| exact Hall]. intros c.
        apply isGrantCall_more. intros x [<- | []]. now left.
      * eapply Forall_impl; [| exact Hall2]. intros c.
        apply isGrantCall_more. intros x Hx. now right.
Qed.

Lemma assignFieldPermissions_calls (connection : Connection)
  (fieldNames : list string) (permissions : list PermissionAssignment.t)
  (w : World) :
  exists (later : list call) (lines : list string),
    assignFieldPermissions connection fieldNames permissions w
    = ({| cwd := cwd w; calls := (calls w ++ later)%list |},
       Return (join newline lines))
    /\ Forall2 lineOf permissions lines
    /\ List.length permissions <= List.length later <= 3 * List.length permissions
    /\ Forall (isGrantCall fieldNames permissions) later.
Proof.
  destruct (assignLoop_outcome connection fieldNames permissions
              {| world := w; results := [] |})
    as [later [lines [Hrun [Hlines _]]]].
  destruct (assignLoop_calls connection fieldNames permissions
              {| world := w; results := [] |})
    as [later' [Hcalls [Hlen Hall]]].
  rewrite Hrun in Hcalls. cbn in Hcalls. apply app_inv_head in Hcalls.
  subst later'.
  exists later, lines. unfold assignFieldPermissions. rewrite Hrun.
  cbn. auto.
Qed.


(** X13: when the remote accepts every update as a PermissionSet, the
    engine makes exactly one call per grantee, never tries a Profile, and
    reports one "Permission Set ... assigned" line per grantee, in order. *)
Theorem X13_all_permission_sets_accepted (connection : Connection)
  (fieldNames : list string) (permissions : list PermissionAssignment.t)
  (w : World) :
  acceptsPermissionSets connection ->
  assignFieldPermissions connection fieldNames permissions w
  = ({| cwd := cwd w;
        calls := (calls w ++ map (permissionSetCall fieldNames) permissions)%list |},
     Return (join newline (map permissionSetLine permissions))).
Proof.
  intros Haccept.
  assert (Hloop : forall f,
             assignLoop connection fieldNames permissions f
             = ({| world :=
                     {| cwd := cwd (world f);
                        calls :=
                          (calls (world f)
                             ++ map (permissionSetCall fieldNames) permissions)%list |};
                   results :=
                     (results f ++ map permissionSetLine permissions)%list |},
                Return tt)).
  { unfold assignLoop.
    induction permissions as [| perm rest IH]; intros f.
    - cbn. rewrite !app_nil_r. now destruct f as [[c k] r].
    - cbn [forEach map]. unfold bind at 1. rewrite assignOne_outcome.
      unfold grantOutcome.
      destruct (Haccept (calls (world f)) (permissionItem fieldNames perm))
        as [answer [outcome [Hret [Hfirst Hsucc]]]].
      rewrite Hret, Hfirst, Hsucc. cbn [fst snd]. rewrite IH.
      cbn [world results cwd calls]. unfold snoc, permissionSetCall, permissionSetLine.
      now rewrite <- !app_assoc. }
  unfold assignFieldPermissions. rewrite Hloop. reflexivity.
Qed.

(** X13, witness: two grantees on a remote that accepts every update. *)
Lemma X13_all_permission_sets_accepted_witness :
  assignFieldPermissions acceptingConnection ["Account.Foo__c"]
    [ sampleGrantee; secondGrantee ] sampleWorld
  = ({| cwd := "/home";
        calls :=
          [ MetadataUpdate "PermissionSet"
              (permissionItem ["Account.Foo__c"] sampleGrantee);
            MetadataUpdate "PermissionSet"
              (permissionItem ["Account.Foo__c"] secondGrantee) ] |},
     Return
       ("✓ Permission Set " ++ dq ++ "Sales" ++ dq ++ ": assigned" ++ newline
        ++ "✓ Permission Set " ++ dq ++ "Support" ++ dq ++ ": assigned")).
Proof.
  apply (X13_all_permission_sets_accepted acceptingConnection ["Account.Foo__c"]
           [ sampleGrantee; secondGrantee ] sampleWorld).
  intros past item.
  exists (One (sampleOutcome true "Sales")), (sampleOutcome true "Sales").
  repeat split.
Defined.

(* ================================================================== *)
(** * Further properties of the orchestrator *)
(* ================================================================== *)

Lemma deploy_create_raises (connection : Connection)
  (fields : list FieldDefinition.t)
  (permissions : option (list PermissionAssignment.t)) (w : World) (e : exn) :
  create connection (calls w) "CustomField" (map metadataItem fields) = Throw e ->
  deployFieldsAndPermissions connection fields permissions w
  = ({| cwd := cwd w;
        calls := snoc (calls w)
                   (MetadataCreate "CustomField" (map metadataItem fields)) |},
     Throw e).
Proof.
  intros H.
  unfold deployFieldsAndPermissions, bind, metadataCreate, remoteCall.
  now rewrite H.
Qed.

Lemma deploy_partition_raises (connection : Connection)
  (fields : list FieldDefinition.t)
  (permissions : option (list PermissionAssignment.t)) (w : World)
  (answer : oneOrMany SaveResult.t) (e : exn) :
  create connection (calls w) "CustomField" (map metadataItem fields)
  = Return answer ->
  partitionResults (toArray answer) [] [] = Throw e ->
  deployFieldsAndPermissions connection fields permissions w
  = ({| cwd := cwd w;
        calls := snoc (calls w)
                   (MetadataCreate "CustomField" (map metadataItem fields)) |},
     Throw e).
Proof.
  intros Hc Hp.
  unfold deployFieldsAndPermissions, bind, metadataCreate, remoteCall, liftResult.
  now rewrite Hc, Hp.
Qed.

(** The calls of an invocation that reaches the summary: the create call,
    then the updates of the permission phase, if it runs. *)
Lemma deploy_calls (connection : Connection) (fields : list FieldDefinition.t)
  (permissions : option (list PermissionAssignment.t)) (w : World)
  (answer : oneOrMany SaveResult.t) (successFields failedFields : list string) :
  create connection (calls w) "CustomField" (map metadataItem fields)
  = Return answer ->
  partitionResults (toArray answer) [] [] = Return (successFields, failedFields) ->
  exists (later : list call) (lines : list string),
    deployFieldsAndPermissions connection fields permissions w
    = ({| cwd := cwd w;
          calls :=
            (calls w
               ++ MetadataCreate "CustomField" (map metadataItem fields)
               :: later)%list |},
       Return (textResponse
                 (buildResultSummary successFields failedFields
                    (join newline lines))
                 (0 <? List.length failedFields)%nat))
    /\ (requested permissions = [] \/ successFields = [] ->
        later = [] /\ lines = [])
    /\ (requested permissions <> [] -> successFields <> [] ->
        Forall2 lineOf (requested permissions) lines
        /\ List.length (requested permissions) <= List.length later
           <= 3 * List.length (requested permissions))
    /\ Forall (isGrantCall successFields (requested permissions)) later.
Proof.
  intros Hcreate Hpart.
  assert (Hskip : forall permissionPhase : M World string,
             permissionPhase = ret "" ->
             (requested permissions = [] \/ successFields = []) ->
             exists (later : list call) (lines : list string),
               (let (s', r) :=
                  permissionPhase
                    {| cwd := cwd w;
                       calls := snoc (calls w)
                                  (MetadataCreate "CustomField"
                                     (map metadataItem fields)) |} in
                match r with
                | Return a =>
                    ret (textResponse
                           (buildResultSummary successFields failedFields a)
                           (0 <? List.length failedFields)%nat) s'
                | Throw e => (s', Throw e)
                end)
               = ({| cwd := cwd w;
                     calls :=
                       (calls w
                          ++ MetadataCreate "CustomField" (map metadataItem fields)
                          :: later)%list |},
                  Return (textResponse
                            (buildResultSummary successFields failedFields
                               (join newline lines))
                            (0 <? List.length failedFields)%nat))
               /\ (requested permissions = [] \/ successFields = [] ->
                   later = [] /\ lines = [])
               /\ (requested permissions <> [] -> successFields <> [] ->
                   Forall2 lineOf (requested permissions) lines
                   /\ List.length (requested permissions) <= List.length later
                      <= 3 * List.length (requested permissions))
               /\ Forall (isGrantCall successFields (requested permissions)) later).
  { intros phase -> Hno. exists [], []. split; [reflexivity |].
    split; [auto | split; [| constructor]].
    intros Hp Hs. destruct Hno; contradiction. }
  unfold deployFieldsAndPermissions, bind, metadataCreate, remoteCall, liftResult.
  rewrite Hcreate, Hpart. cbv beta iota zeta. cbn [fst snd].
  destruct permissions as [[| p ps] |];
    try (apply Hskip; [reflexivity | left; reflexivity]).
  destruct successFields as [| s ss];
    [apply Hskip; [reflexivity | right; reflexivity] |].
  cbn [List.length Nat.ltb Nat.leb requested].
  match goal with
  | |- context [assignFieldPermissions ?c ?n ?perms ?w0] =>
      destruct (assignFieldPermissions_calls c n perms w0)
        as [later [lines [Hrun [Hlines [Hlen Hall]]]]]
  end.
  rewrite Hrun. cbn [cwd calls]. unfold snoc. rewrite <- app_assoc. cbn [app].
  exists later, lines. split; [reflexivity |].
  split; [| split; [auto | exact Hall]].
  intros [H | H]; discriminate H.
Qed.

Lemma filter_success_none (results : list SaveResult.t) :
  (forall outcome, In outcome results -> SaveResult.success outcome = false) ->
  filter SaveResult.success results = [].
Proof.
  induction results as [| r rest IH]; intros H; [reflexivity |].
  cbn [filter]. rewrite (H r (or_introl eq_refl)).
  apply IH. intros o Ho. apply H. now right.
Qed.

Lemma filter_success_some (results : list SaveResult.t) :
  (exists outcome, In outcome results /\ SaveResult.success outcome = true) ->
  filter SaveResult.success results <> [].
Proof.
  intros [o [Hin Hs]] Hnil.
  assert (Hf : In o (filter SaveResult.success results))
    by (apply filter_In; auto).
  rewrite Hnil in Hf. contradiction.
Qed.

(** X14: the permission phase is skipped, with no update call made and no
    permission block in the report, when permissions is absent or empty or
    when no outcome of the create call is successful; the create call is
    then the only remote call of the orchestrator. *)
Theorem X14_permission_phase_skipped (connection : Connection)
  (fields : list FieldDefinition.t)
  (permissions : option (list PermissionAssignment.t)) (w w' : World)
  (answer : oneOrMany SaveResult.t) (r : CallToolResult) :
  create connection (calls w) "CustomField" (map metadataItem fields)
  = Return answer ->
  deployFieldsAndPermissions connection fields permissions w = (w', Return r) ->
  requested permissions = []
  \/ (forall outcome, In outcome (toArray answer) ->
        SaveResult.success outcome = false) ->
  calls w'
  = snoc (calls w) (MetadataCreate "CustomField" (map metadataItem fields))
  /\ exists successFields failedFields,
       partitionResults (toArray answer) [] [] = Return (successFields, failedFields)
       /\ text r = buildResultSummary successFields failedFields "".
Proof.
  intros Hcreate Hrun Hno.
  destruct (deploy_reaches_summary _ _ _ _ _ _ Hrun)
    as [answer' [s [f [Hcreate' Hpart]]]].
  rewrite Hcreate in Hcreate'. injection Hcreate' as <-.
  destruct (deploy_calls connection fields permissions w answer s f Hcreate Hpart)
    as [later [lines [Hsum [Hskip _]]]].
  destruct Hskip as [-> ->].
  { destruct Hno as [Hno | Hno]; [now left | right].
    destruct (partitionResults_spec _ _ _ _ _ Hpart) as [Hs _].
    rewrite Hs. cbn [app]. now rewrite (filter_success_none _ Hno). }
  rewrite Hsum in Hrun. injection Hrun as <- <-.
  split; [reflexivity |]. exists s, f. split; [exact Hpart | reflexivity].
Qed.

(** X14, witness: every field created, no permissions asked for. *)
Lemma X14_permission_phase_skipped_witness :
  calls (fst (deployFieldsAndPermissions acceptingConnection twoFields None
                sampleWorld))
  = [ MetadataCreate "CustomField" (map metadataItem twoFields) ].
Proof.
  pose (run := deployFieldsAndPermissions acceptingConnection twoFields None
                 sampleWorld).
  apply (X14_permission_phase_skipped acceptingConnection twoFields None
           sampleWorld (fst run)
           (Many [ sampleOutcome true "Account.Foo__c";
                   sampleOutcome true "Account.Bar__c" ])
           (match snd run with
            | Return r => r
            | Throw _ => textResponse "" false
            end));
    [reflexivity | reflexivity | left; reflexivity].
Defined.

(** The item built for a grantee names the grantee and lists the fields
    one by one with the grantee's flags. *)
Lemma isGrantCall_carriesGrant (fieldNames : list string)
  (permissions : list PermissionAssignment.t) (c : call) :
  isGrantCall fieldNames permissions c -> carriesGrant fieldNames permissions c.
Proof.
  intros [perm [kind [Hin [Hkind Hc]]]].
  exists perm, kind,
    (map (fun fieldName =>
            VObj [ ("field", VStr fieldName);
                   ("readable", VBool (PermissionAssignment.readable perm));
                   ("editable", VBool (PermissionAssignment.editable perm)) ])
       fieldNames).
  split; [exact Hin | split; [exact Hkind | split; [exact Hc | split]]].
  - apply length_map.
  - intros i name Hi. now rewrite nth_error_map, Hi.
Qed.

(** X15: every update the orchestrator makes is an update, as a
    PermissionSet or as a Profile, of an object whose fullName is the name
    of one of the grantees asked for and whose fieldPermissions has exactly
    one entry per successful outcome, in the order the outcomes were
    returned, entry i holding the fullName of the i-th successful outcome
    and the grantee's readable and editable flags; fields that failed are
    in no entry.  When permissions were asked for and a field was created,
    the n grantees cost between n and 3n updates. *)
Theorem X15_grants_only_created_fields (connection : Connection)
  (fields : list FieldDefinition.t)
  (permissions : option (list PermissionAssignment.t)) (w w' : World)
  (answer : oneOrMany SaveResult.t) (r : CallToolResult) :
  create connection (calls w) "CustomField" (map metadataItem fields)
  = Return answer ->
  deployFieldsAndPermissions connection fields permissions w = (w', Return r) ->
  exists later : list call,
    calls w'
    = (calls w
         ++ MetadataCreate "CustomField" (map metadataItem fields) :: later)%list
    /\ Forall
         (carriesGrant
            (map SaveResult.fullName (filter SaveResult.success (toArray answer)))
            (requested permissions))
         later
    /\ (requested permissions <> [] ->
        (exists outcome,
            In outcome (toArray answer) /\ SaveResult.success outcome = true) ->
        List.length (requested permissions) <= List.length later
        <= 3 * List.length (requested permissions)).
Proof.
  intros Hcreate Hrun.
  destruct (deploy_reaches_summary _ _ _ _ _ _ Hrun)
    as [answer' [s [f [Hcreate' Hpart]]]].
  rewrite Hcreate in Hcreate'. injection Hcreate' as <-.
  destruct (deploy_calls connection fields permissions w answer s f Hcreate Hpart)
    as [later [lines [Hsum [_ [Hrunning Hall]]]]].
  rewrite Hsum in Hrun. injection Hrun as <- _.
  destruct (partitionResults_spec _ _ _ _ _ Hpart) as [Hs _]. cbn [app] in Hs.
  subst s. exists later. split; [reflexivity | split].
  - eapply Forall_impl; [| exact Hall].
    intros c. apply isGrantCall_carriesGrant.
  - intros Hperms Hsome. apply Hrunning; [exact Hperms |].
    intros Hnil. apply map_eq_nil in Hnil.
    now apply (filter_success_some _ Hsome).
Qed.

(** X15, witness: two created and one rejected; the update attempted for
    "Sales" as a PermissionSet and its retry as a Profile carry the two
    created fields, readable and not editable, and nothing else. *)
Lemma X15_grants_only_created_fields_witness :
  calls (fst (deployFieldsAndPermissions mixedConnection threeFields
                (Some [ sampleGrantee ]) sampleWorld))
  = [ MetadataCreate "CustomField" (map metadataItem threeFields);
      MetadataUpdate "PermissionSet"
        [ ("fullName", VStr "Sales");
          ("fieldPermissions",
            VArr [ VObj [ ("field", VStr "Account.Baz__c");
                          ("readable", VBool true); ("editable", VBool false) ];
                   VObj [ ("field", VStr "Account.Foo__c");
                          ("readable", VBool true); ("editable", VBool false) ] ]) ];
      MetadataUpdate "Profile"
        [ ("fullName", VStr "Sales");
          ("fieldPermissions",
            VArr [ VObj [ ("field", VStr "Account.Baz__c");
                          ("readable", VBool true); ("editable", VBool false) ];
                   VObj [ ("field", VStr "Account.Foo__c");
                          ("readable", VBool true); ("editable", VBool false) ] ]) ] ]
  /\ exists later : list call,
       calls (fst (deployFieldsAndPermissions mixedConnection threeFields
                     (Some [ sampleGrantee ]) sampleWorld))
       = MetadataCreate "CustomField" (map metadataItem threeFields) :: later
       /\ Forall
            (carriesGrant [ "Account.Baz__c"; "Account.Foo__c" ] [ sampleGrantee ])
            later.
Proof.
  split; [reflexivity |].
  pose (run := deployFieldsAndPermissions mixedConnection threeFields
                 (Some [ sampleGrantee ]) sampleWorld).
  destruct (X15_grants_only_created_fields mixedConnection threeFields
              (Some [ sampleGrantee ]) sampleWorld (fst run)
              (Many [ sampleOutcome true "Account.Baz__c";
                      sampleOutcome false "Account.Bar__c";
                      sampleOutcome true "Account.Foo__c" ])
              (match snd run with
               | Return r => r
               | Throw _ => textResponse "" false
               end) eq_refl eq_refl)
    as [later [Hcalls [Hall _]]].
  exists later. split; [exact Hcalls | exact Hall].
Defined.

(* ================================================================== *)
(** * Further properties of the operation *)
(* ================================================================== *)

(** With an identifier, [exec] is what follows its first [if]. *)
Lemma exec_with_identifier (process : Process) (services : Services)
  (input : InputArgs.t) (u : string) :
  InputArgs.usernameOrAlias input = Some u -> u <> "" ->
  exec process services input
  = (processChdir process (InputArgs.directory input) ;;;
     tryCatch
       (connection <- resolveConnection services u ;;
        deployFieldsAndPermissions connection (InputArgs.fields input)
          (InputArgs.permissions input))
       (fun error =>
          ret (textResponse
                 ("Failed to create custom fields: " ++ exnMessage error) true))).
Proof.
  intros Hid Hu. unfold exec. rewrite Hid.
  destruct u; [contradiction | reflexivity].
Qed.

Ltac run_exec Hid Hu Hchdir :=
  rewrite (exec_with_identifier _ _ _ _ Hid Hu);
  unfold bind at 1; unfold processChdir; rewrite Hchdir; cbv beta iota zeta;
  unfold tryCatch, bind, resolveConnection, remoteCall; cbn [calls cwd].

(** The log of the orchestrator starts with its create call, whether it
    returns or raises. *)
Lemma deploy_log (connection : Connection) (fields : list FieldDefinition.t)
  (permissions : option (list PermissionAssignment.t)) (w : World) :
  exists later,
    calls (fst (deployFieldsAndPermissions connection fields permissions w))
    = (calls w
         ++ MetadataCreate "CustomField" (map metadataItem fields) :: later)%list.
Proof.
  destruct (create connection (calls w) "CustomField" (map metadataItem fields))
    as [answer | e] eqn:Hcreate.
  - destruct (partitionResults (toArray answer) [] []) as [[s f] | e] eqn:Hpart.
    + destruct (deploy_calls connection fields permissions w answer s f
                  Hcreate Hpart) as [later [lines [Hrun _]]].
      exists later. now rewrite Hrun.
    + exists []. now rewrite (deploy_partition_raises _ _ _ _ _ _ Hcreate Hpart).
  - exists []. now rewrite (deploy_create_raises _ _ _ _ _ Hcreate).
Qed.

(** X16: [process.chdir] is called outside the [try]: when it raises, the
    operation raises the same exception instead of returning an error
    result, and it has made no remote call and changed nothing. *)
Theorem X16_chdir_failure_escapes (process : Process) (services : Services)
  (input : InputArgs.t) (w : World) (u : string) (e : exn) :
  InputArgs.usernameOrAlias input = Some u -> u <> "" ->
  chdir process (cwd w) (InputArgs.directory input) = Throw e ->
  exec process services input w = (w, Throw e).
Proof.
  intros Hid Hu Hchdir.
  rewrite (exec_with_identifier _ _ _ _ Hid Hu).
  unfold bind, processChdir. now rewrite Hchdir.
Qed.

(** X16, witness: a directory that does not exist. *)
Lemma X16_chdir_failure_escapes_witness :
  exec raisingProcess (sampleServices acceptingConnection)
    (sampleInput (Some "admin@example.com")) sampleWorld
  = (sampleWorld, Throw (Error "ENOENT: no such file or directory")).
Proof.
  apply (X16_chdir_failure_escapes raisingProcess
           (sampleServices acceptingConnection)
           (sampleInput (Some "admin@example.com")) sampleWorld
           "admin@example.com");
    [reflexivity | discriminate | reflexivity].
Defined.

(** X17: once the working directory is changed, the operation never raises:
    it returns a result, the working directory is the new one, and the
    first remote call it made is the resolution of the identifier. *)
Theorem X17_exec_returns_after_chdir (process : Process) (services : Services)
  (input : InputArgs.t) (w : World) (u directory : string) :
  InputArgs.usernameOrAlias input = Some u -> u <> "" ->
  chdir process (cwd w) (InputArgs.directory input) = Return directory ->
  exists (w' : World) (r : CallToolResult) (later : list call),
    exec process services input w = (w', Return r)
    /\ cwd w' = directory
    /\ calls w' = (calls w ++ GetConnection u :: later)%list.
Proof.
  intros Hid Hu Hchdir. run_exec Hid Hu Hchdir.
  destruct (getConnection services (calls w) u) as [connection | e];
    cbv beta iota zeta.
  - match goal with
    | |- context [deployFieldsAndPermissions ?c ?fs ?ps ?w0] =>
        pose proof (deploy_cwd c fs ps w0) as Hcwd;
        destruct (deploy_log c fs ps w0) as [later Hlog];
        destruct (deployFieldsAndPermissions c fs ps w0) as [w1 [r | e]]
    end; cbn [fst cwd calls] in Hcwd, Hlog; unfold snoc in Hlog;
      rewrite <- app_assoc in Hlog; cbn [app] in Hlog;
      eexists _, _, _; (split; [reflexivity |]); split; eassumption.
  - eexists _, _, []. split; [reflexivity |]. split; reflexivity.
Qed.

(** X17, witness: the sample input on a remote that accepts everything. *)
Lemma X17_exec_returns_after_chdir_witness :
  exists (w' : World) (r : CallToolResult) (later : list call),
    exec sampleProcess (sampleServices acceptingConnection)
      (sampleInput (Some "admin@example.com")) sampleWorld
    = (w', Return r)
    /\ cwd w' = "/project"
    /\ calls w' = GetConnection "admin@example.com" :: later.
Proof.
  apply (X17_exec_returns_after_chdir sampleProcess
           (sampleServices acceptingConnection)
           (sampleInput (Some "admin@example.com")) sampleWorld
           "admin@example.com" "/project");
    [reflexivity | discriminate | reflexivity].
Defined.

(** X18: when the identifier cannot be resolved to a connection, the
    operation returns "Failed to create custom fields: " followed by the
    message raised, with the error flag set; the resolution is its only
    remote call, so nothing was submitted. *)
Theorem X18_unresolved_identifier (process : Process) (services : Services)
  (input : InputArgs.t) (w : World) (u directory : string) (e : exn) :
  InputArgs.usernameOrAlias input = Some u -> u <> "" ->
  chdir process (cwd w) (InputArgs.directory input) = Return directory ->
  getConnection services (calls w) u = Throw e ->
  exec process services input w
  = ({| cwd := directory; calls := snoc (calls w) (GetConnection u) |},
     Return {| text := "Failed to create custom fields: " ++ exnMessage e;
               isError := true |}).
Proof.
  intros Hid Hu Hchdir Hconn. run_exec Hid Hu Hchdir.
  now rewrite Hconn.
Qed.

(** X18, witness: an alias nobody is logged in with. *)
Lemma X18_unresolved_identifier_witness :
  exec sampleProcess raisingServices (sampleInput (Some "nobody")) sampleWorld
  = ({| cwd := "/project"; calls := [ GetConnection "nobody" ] |},
     Return {| text := "Failed to create custom fields: No authorization found";
               isError := true |}).
Proof.
  apply (X18_unresolved_identifier sampleProcess raisingServices
           (sampleInput (Some "nobody")) sampleWorld "nobody" "/project"
           (Error "No authorization found"));
    [reflexivity | discriminate | reflexivity | reflexivity].
Defined.

(** X19: when the create call itself raises, the operation returns "Failed
    to create custom fields: " followed by the message, with the error flag
    set; after the resolution and the create call no further call is made,
    so no permission is touched. *)
Theorem X19_create_failure_reported (process : Process) (services : Services)
  (input : InputArgs.t) (w : World) (u directory : string)
  (connection : Connection) (e : exn) :
  InputArgs.usernameOrAlias input = Some u -> u <> "" ->
  chdir process (cwd w) (InputArgs.directory input) = Return directory ->
  getConnection services (calls w) u = Return connection ->
  create connection (snoc (calls w) (GetConnection u)) "CustomField"
    (map metadataItem (InputArgs.fields input))
  = Throw e ->
  exec process services input w
  = ({| cwd := directory;
        calls :=
          snoc (snoc (calls w) (GetConnection u))
            (MetadataCreate "CustomField"
               (map metadataItem (InputArgs.fields input))) |},
     Return {| text := "Failed to create custom fields: " ++ exnMessage e;
               isError := true |}).
Proof.
  intros Hid Hu Hchdir Hconn Hcreate. run_exec Hid Hu Hchdir.
  rewrite Hconn. cbv beta iota zeta.
  match goal with
  | |- context [deployFieldsAndPermissions ?c ?fs ?ps ?w0] =>
      rewrite (deploy_create_raises c fs ps w0 e Hcreate)
  end.
  reflexivity.
Qed.

(** X19, witness: a remote over its request limit. *)
Lemma X19_create_failure_reported_witness :
  exec sampleProcess (sampleServices raisingCreateConnection)
    (sampleInput (Some "admin@example.com")) sampleWorld
  = ({| cwd := "/project";
        calls :=
          [ GetConnection "admin@example.com";
            MetadataCreate "CustomField"
              [ metadataItem (sampleField "Account" "Foo" Text) ] ] |},
     Return {| text := "Failed to create custom fields: REQUEST_LIMIT_EXCEEDED";
               isError := true |}).
Proof.
  apply (X19_create_failure_reported sampleProcess
           (sampleServices raisingCreateConnection)
           (sampleInput (Some "admin@example.com")) sampleWorld
           "admin@example.com" "/project" raisingCreateConnection
           (Error "REQUEST_LIMIT_EXCEEDED"));
    [reflexivity | discriminate | reflexivity | reflexivity | reflexivity].
Defined.

(** X20: when some outcome of the create call is flagged unsuccessful and
    carries no errors value, the whole report is lost: the operation
    returns the one-line failure made of the TypeError's message, with the
    error flag set, names none of the fields that were created, and makes
    no permission update. *)
Theorem X20_unexplained_failure_loses_report (process : Process)
  (services : Services) (input : InputArgs.t) (w : World)
  (u directory : string) (connection : Connection)
  (answer : oneOrMany SaveResult.t) :
  InputArgs.usernameOrAlias input = Some u -> u <> "" ->
  chdir process (cwd w) (InputArgs.directory input) = Return directory ->
  getConnection services (calls w) u = Return connection ->
  create connection (snoc (calls w) (GetConnection u)) "CustomField"
    (map metadataItem (InputArgs.fields input))
  = Return answer ->
  explained (toArray answer) = false ->
  exec process services input w
  = ({| cwd := directory;
        calls :=
          snoc (snoc (calls w) (GetConnection u))
            (MetadataCreate "CustomField"
               (map metadataItem (InputArgs.fields input))) |},
     Return {| text := "Failed to create custom fields: Cannot read properties of undefined (reading 'message')";
               isError := true |}).
Proof.
  intros Hid Hu Hchdir Hconn Hcreate Hsilent. run_exec Hid Hu Hchdir.
  rewrite Hconn. cbv beta iota zeta.
  match goal with
  | |- context [deployFieldsAndPermissions ?c ?fs ?ps ?w0] =>
      rewrite (deploy_partition_raises c fs ps w0 answer _ Hcreate
                 (partitionResults_unexplained _ [] [] Hsilent))
  end.
  reflexivity.
Qed.

(** X20, witness: one field created, one rejected without a reason, and a
    grantee asked for. *)
Lemma X20_unexplained_failure_loses_report_witness :
  exec sampleProcess (sampleServices silentFailureConnection)
    (sampleInput (Some "admin@example.com")) sampleWorld
  = ({| cwd := "/project";
        calls :=
          [ GetConnection "admin@example.com";
            MetadataCreate "CustomField"
              [ metadataItem (sampleField "Account" "Foo" Text) ] ] |},
     Return {| text := "Failed to create custom fields: Cannot read properties of undefined (reading 'message')";
               isError := true |}).
Proof.
  apply (X20_unexplained_failure_loses_report sampleProcess
           (sampleServices silentFailureConnection)
           (sampleInput (Some "admin@example.com")) sampleWorld
           "admin@example.com" "/project" silentFailureConnection
           (Many [ sampleOutcome true "Account.Foo__c";
                   {| SaveResult.success := false;
                      SaveResult.fullName := "Account.Bar__c";
                      SaveResult.errors := None |} ]));
    [reflexivity | discriminate | reflexivity | reflexivity | reflexivity
    | reflexivity].
Defined.

Lemma failed_flag (results : list SaveResult.t) :
  (0 <? List.length (map failureLine (filter failed results)))%nat
  = existsb failed results.
Proof.
  induction results as [| o rest IH]; [reflexivity |].
  cbn [filter existsb]. destruct (failed o); [reflexivity | exact IH].
Qed.

(** The report of the orchestrator with its permission text pinned: the
    empty text when the permission phase is skipped, and otherwise the text
    the engine returns when run on the successful names right after the
    create call. *)
Lemma deploy_report (connection : Connection) (fields : list FieldDefinition.t)
  (permissions : option (list PermissionAssignment.t)) (w : World)
  (answer : oneOrMany SaveResult.t) (successFields failedFields : list string) :
  create connection (calls w) "CustomField" (map metadataItem fields)
  = Return answer ->
  partitionResults (toArray answer) [] [] = Return (successFields, failedFields) ->
  exists (w' : World) (permissionResults : string),
    deployFieldsAndPermissions connection fields permissions w
    = (w', Return (textResponse
                     (buildResultSummary successFields failedFields permissionResults)
                     (0 <? List.length failedFields)%nat))
    /\ (requested permissions = [] \/ successFields = [] ->
        w' = afterCreate w fields /\ permissionResults = "")
    /\ (requested permissions <> [] -> successFields <> [] ->
        assignFieldPermissions connection successFields (requested permissions)
          (afterCreate w fields)
        = (w', Return permissionResults)).
Proof.
  intros Hcreate Hpart.
  unfold deployFieldsAndPermissions, bind, metadataCreate, remoteCall, liftResult.
  rewrite Hcreate, Hpart. cbv beta iota zeta. cbn [fst snd].
  fold (afterCreate w fields).
  assert (Hskip : requested permissions = [] \/ successFields = [] ->
            exists (w' : World) (permissionResults : string),
              (ret (textResponse
                      (buildResultSummary successFields failedFields "")
                      (0 <? List.length failedFields)%nat) (afterCreate w fields)
               : World * result CallToolResult)
              = (w', Return (textResponse
                               (buildResultSummary successFields failedFields
                                  permissionResults)
                               (0 <? List.length failedFields)%nat))
              /\ (requested permissions = [] \/ successFields = [] ->
                  w' = afterCreate w fields /\ permissionResults = "")
              /\ (requested permissions <> [] -> successFields <> [] ->
                  assignFieldPermissions connection successFields
                    (requested permissions) (afterCreate w fields)
                  = (w', Return permissionResults))).
  { intros Hno. exists (afterCreate w fields), "".
    split; [reflexivity | split; [auto |]].
    intros Hp Hs. destruct Hno; contradiction. }
  destruct permissions as [[| p ps] |];
    try (apply Hskip; left; reflexivity).
  destruct successFields as [| s ss]; [apply Hskip; right; reflexivity |].
  clear Hskip. cbn [List.length Nat.ltb Nat.leb requested].
  destruct (assignFieldPermissions_outcome connection (s :: ss) (p :: ps)
              (afterCreate w fields)) as [later [lines [Hrun _]]].
  rewrite Hrun. eexists _, _. split; [reflexivity | split].
  - intros [H | H]; discriminate H.
  - intros _ _. reflexivity.
Qed.

(** X21: on the path without exception the operation returns the report of
    the orchestrator as it is: the summary of the fullNames of the successful
    outcomes, of one "fullName: messages" line per failed outcome, and of
    the permission text, which is empty when no permission was asked for or
    no field was created and is otherwise exactly the text the permission
    engine returns when run on the successful fullNames right after the
    create call; the world returned is the one the engine left.  The error
    flag is set exactly when some outcome of the create call is flagged
    unsuccessful. *)
Theorem X21_exec_reports_outcomes (process : Process)
  (services : Services) (input : InputArgs.t) (w : World)
  (u directory : string) (connection : Connection)
  (answer : oneOrMany SaveResult.t) :
  InputArgs.usernameOrAlias input = Some u -> u <> "" ->
  chdir process (cwd w) (InputArgs.directory input) = Return directory ->
  getConnection services (calls w) u = Return connection ->
  create connection (snoc (calls w) (GetConnection u)) "CustomField"
    (map metadataItem (InputArgs.fields input))
  = Return answer ->
  explained (toArray answer) = true ->
  exists (w' : World) (permissionResults : string),
    exec process services input w
    = (w',
       Return
         {| text :=
              buildResultSummary
                (map SaveResult.fullName (filter SaveResult.success (toArray answer)))
                (map failureLine (filter failed (toArray answer)))
                permissionResults;
            isError := existsb failed (toArray answer) |})
    /\ (requested (InputArgs.permissions input) = []
        \/ filter SaveResult.success (toArray answer) = [] ->
        permissionResults = ""
        /\ w' = afterCreate
                  {| cwd := directory; calls := snoc (calls w) (GetConnection u) |}
                  (InputArgs.fields input))
    /\ (requested (InputArgs.permissions input) <> [] ->
        filter SaveResult.success (toArray answer) <> [] ->
        assignFieldPermissions connection
          (map SaveResult.fullName (filter SaveResult.success (toArray answer)))
          (requested (InputArgs.permissions input))
          (afterCreate
             {| cwd := directory; calls := snoc (calls w) (GetConnection u) |}
             (InputArgs.fields input))
        = (w', Return permissionResults)).
Proof.
  intros Hid Hu Hchdir Hconn Hcreate Hexplained. run_exec Hid Hu Hchdir.
  rewrite Hconn. cbv beta iota zeta.
  pose proof (partitionResults_explained _ [] [] Hexplained) as Hpart.
  cbn [app] in Hpart.
  match goal with
  | |- context [deployFieldsAndPermissions ?c ?fs ?ps ?w0] =>
      destruct (deploy_report c fs ps w0 answer _ _ Hcreate Hpart)
        as [w1 [permissionResults [Hsum [Hskipped Hran]]]]
  end.
  rewrite Hsum. exists w1, permissionResults. unfold textResponse.
  rewrite failed_flag. split; [reflexivity | split].
  - intros Hno. apply and_comm. apply Hskipped.
    destruct Hno as [Hno | Hno]; [now left | right; now rewrite Hno].
  - intros Hperms Hsome. apply Hran; [exact Hperms |].
    intros Hnil. apply map_eq_nil in Hnil. contradiction.
Qed.

(** X21, witness: two created, one rejected, the grantee's updates raising:
    the report carries the grantee's failure line. *)
Lemma X21_exec_reports_outcomes_witness :
  exists w' : World,
    exec sampleProcess (sampleServices mixedConnection)
      {| InputArgs.fields := threeFields;
         InputArgs.permissions := Some [ sampleGrantee ];
         InputArgs.usernameOrAlias := Some "admin@example.com";
         InputArgs.directory := "/project" |} sampleWorld
    = (w',
       Return
         {| text :=
              buildResultSummary [ "Account.Baz__c"; "Account.Foo__c" ]
                [ "Account.Bar__c: rejected" ]
                ("✗ " ++ dq ++ "Sales" ++ dq ++ ": INVALID_SESSION");
            isError := true |}).
Proof.
  destruct (X21_exec_reports_outcomes sampleProcess
              (sampleServices mixedConnection)
              {| InputArgs.fields := threeFields;
                 InputArgs.permissions := Some [ sampleGrantee ];
                 InputArgs.usernameOrAlias := Some "admin@example.com";
                 InputArgs.directory := "/project" |} sampleWorld
              "admin@example.com" "/project" mixedConnection
              (Many [ sampleOutcome true "Account.Baz__c";
                      sampleOutcome false "Account.Bar__c";
                      sampleOutcome true "Account.Foo__c" ])
              eq_refl ltac:(discriminate) eq_refl eq_refl eq_refl eq_refl)
    as [w' [permissionResults [Hexec [_ Hran]]]].
  specialize (Hran ltac:(discriminate) ltac:(discriminate)).
  vm_compute in Hran. injection Hran as _ Htext.
  exists w'. rewrite Hexec, <- Htext. reflexivity.
Defined.
